(** * wesellgadgets: client store and order/payment routes

    A shallow embedding of the zustand stores of [src/store/index.ts]
    (cart, product catalogue, admin orders) and of the express handlers of
    [backend/src/routes/orders.ts] and [backend/src/routes/payments.ts],
    followed by the properties the specification states about them.

    Conventions of the embedding.
    - A JavaScript [number] is a double, written as the rational it
      denotes ([Q]); NaN, the infinities and the sign of zero are not
      modelled.  [JS.double] rounds a rational to the nearest double (ties
      to even, subnormals included), and the source's [+], [-] and [*] on
      totals and amounts of money are [JS.add], [JS.sub] and [JS.mul],
      which round as the doubles do.  A decimal literal of the source
      ([9.99], [0.08]) is written as it is and stands for the double
      nearest to it, which is what the arithmetic reads.  Where the source
      adds a quantity to a cart line or moves a stock count the operands
      are whole numbers, which the doubles add exactly, and the exact sum
      is written; a difference used only for its sign is exact as well.
    - A JavaScript string is a [string]; [===] on strings is [String.eqb].
    - A mongoose collection is a finite map from document ids to documents.
    - [new Date()] is an argument [now] of the handler that calls it. *)

From Stdlib Require Import QArith Qround Qabs Qpower List String Sorting Permutation Lia Lqa OrderedTypeEx.
From stdpp Require Import gmap strings list.
Import ListNotations.
Open Scope Q_scope.

Definition number := Q.

(** ** Library functions of the platform *)

Module JS.

(** [if (s)] on a string: the empty string is the only falsy one. *)
Definition truthy (s : string) : bool :=
  match s with EmptyString => false | _ => true end.

(** *** Numbers

    The value of a double is [m * 2^e] for integers [m] and [e] with
    [|m| < 2^53] and [-1074 <= e]. *)

(** The largest integer [l] with [2^l <= x], for a positive [x]. *)
Definition ilog2 (x : Q) : Z :=
  if Qle_bool 1 x then Z.log2 (Qfloor x) else (- Z.log2_up (Qceiling (/ x)))%Z.

(** The nearest integer, the even one of the two when [x] is half way. *)
Definition nearest_even (x : Q) : Z :=
  let f := Qfloor x in
  match Qcompare (x - inject_Z f) (1 # 2) with
  | Lt => f
  | Gt => (f + 1)%Z
  | Eq => if Z.even f then f else (f + 1)%Z
  end.

(** The exponent [e] of the doubles next to [x]: 52 below the binary
    logarithm of [|x|], and never below that of the subnormal doubles. *)
Definition exponent (x : Q) : Z := Z.max (ilog2 (Qabs x) - 52) (-1074).

(** The double nearest to [x], as the conversion of a decimal literal and
    every arithmetic operation round (round to nearest, ties to even).
    Beyond the largest double, where JavaScript has [Infinity], the same
    grid is continued. *)
Definition double (x : Q) : number :=
  Qred (inject_Z (nearest_even (x / 2 ^ exponent x)) * 2 ^ exponent x).

(** [a + b], [a - b] and [a * b] on numbers. *)
Definition add (a b : number) : number := double (double a + double b).
Definition sub (a b : number) : number := double (double a - double b).
Definition mul (a b : number) : number := double (double a * double b).

#[global] Arguments double : simpl never.
#[global] Arguments add : simpl never.
#[global] Arguments sub : simpl never.
#[global] Arguments mul : simpl never.

(** [a <= b], [a >= b], [a < b] on numbers. *)
Definition le (a b : number) : bool := Qle_bool a b.
Definition ge (a b : number) : bool := Qle_bool b a.
Definition lt (a b : number) : bool := negb (Qle_bool b a).

(** [haystack.includes(needle)] on strings. *)
Fixpoint String_includes (haystack needle : string) : bool :=
  String.prefix needle haystack ||
  match haystack with
  | EmptyString => false
  | String _ rest => String_includes rest needle
  end.

(** [xs.includes(x)] on an array of strings. *)
Definition Array_includes (xs : list string) (x : string) : bool :=
  existsb (String.eqb x) xs.

(** [xs.reduce(f, init)]. *)
Definition Array_reduce {A B} (f : B -> A -> B) (init : B) (xs : list A) : B :=
  fold_left f xs init.

(** [xs.sort(comparefn)].  ECMAScript leaves the algorithm open but
    requires the result to be sorted and stable for a consistent
    comparator: [a] goes before [b] when [comparefn(a, b) < 0], after it
    when [comparefn(a, b) > 0], and ties keep their order.  Insertion from
    the right is one such sort. *)
Fixpoint sort_insert {A} (comparefn : A -> A -> number) (x : A) (xs : list A)
  : list A :=
  match xs with
  | [] => [x]
  | y :: rest =>
      if le (comparefn x y) 0 then x :: y :: rest
      else y :: sort_insert comparefn x rest
  end.

Definition Array_sort {A} (comparefn : A -> A -> number) (xs : list A) : list A :=
  fold_right (sort_insert comparefn) [] xs.

End JS.

(** ** The client store, [src/store/index.ts] *)

Module Store.

Inductive Condition := excellent | good | fair | refurbished.

Definition Condition_string (c : Condition) : string :=
  match c with
  | excellent => "excellent"
  | good => "good"
  | fair => "fair"
  | refurbished => "refurbished"
  end.

Module Product.
Record t := mk {
  id : string;
  name : string;
  description : string;
  price : number;
  originalPrice : option number;
  condition : Condition;
  category : string;
  brand : string;
  images : list string;
  specifications : list (string * string);
  inStock : bool;
  stockCount : number;
  rating : number;
  reviewCount : number;
  featured : bool;
  createdAt : string
}.
End Product.
Abbreviation Product := Product.t.

Module CartItem.
Record t := mk { product : Product; quantity : number }.
End CartItem.
Abbreviation CartItem := CartItem.t.

(** *** Cart store *)

Module CartState.
Record t := mk { items : list CartItem; isOpen : bool }.
End CartState.
Abbreviation CartState := CartState.t.

Module Cart.
Import CartState.

(** zustand's [set({ items })]: the other fields are kept. *)
Definition set_items (xs : list CartItem) (st : CartState) : CartState :=
  {| items := xs; isOpen := isOpen st |}.

Definition initial : CartState := {| items := []; isOpen := false |}.

(** [addItem(product, quantity = 1)] *)
Definition addItem (product : Product) (quantity : option number)
    (st : CartState) : CartState :=
  let quantity := default 1 quantity in
  let items := items st in
  let existingItem :=
    List.find (fun item =>
      String.eqb (Product.id (CartItem.product item)) (Product.id product))
      items in
  match existingItem with
  | Some _ =>
      set_items
        (map (fun item =>
           if String.eqb (Product.id (CartItem.product item)) (Product.id product)
           then {| CartItem.product := CartItem.product item;
                   CartItem.quantity := CartItem.quantity item + quantity |}
           else item) items) st
  | None =>
      set_items
        (items ++ [ {| CartItem.product := product;
                       CartItem.quantity := quantity |} ]) st
  end.

Definition removeItem (productId : string) (st : CartState) : CartState :=
  set_items
    (List.filter (fun item =>
       negb (String.eqb (Product.id (CartItem.product item)) productId))
       (items st)) st.

Definition updateQuantity (productId : string) (quantity : number)
    (st : CartState) : CartState :=
  if JS.le quantity 0 then removeItem productId st
  else
    set_items
      (map (fun item =>
         if String.eqb (Product.id (CartItem.product item)) productId
         then {| CartItem.product := CartItem.product item;
                 CartItem.quantity := quantity |}
         else item) (items st)) st.

Definition clearCart (st : CartState) : CartState := set_items [] st.

Definition toggleCart (st : CartState) : CartState :=
  {| items := items st; isOpen := negb (isOpen st) |}.



End Cart.

(** *** Auth store *)

Module Role.
(** ['customer' | 'admin'] *)
Inductive t := customer | admin.
End Role.
Abbreviation Role := Role.t.

Module User.
Record t := mk { id : string; email : string; name : string; role : Role }.
End User.
Abbreviation User := User.t.

Module AuthState.
Record t := mk { user : option User; isAuthenticated : bool }.
End AuthState.
Abbreviation AuthState := AuthState.t.

Module Auth.
Import AuthState.

Definition initial : AuthState := {| user := None; isAuthenticated := false |}.

(** [login(email, password)]: the promise's value and the state after. *)
Definition login (email password : string) (st : AuthState) : bool * AuthState :=
  if String.eqb email "admin@techvault.com" && String.eqb password "admin123" then
    let user :=
      {| User.id := "1"; User.email := email; User.name := "Admin User";
         User.role := Role.admin |} in
    (true, {| user := Some user; isAuthenticated := true |})
  else if JS.truthy email && JS.truthy password then
    let user :=
      {| User.id := "2"; User.email := email; User.name := "Customer User";
         User.role := Role.customer |} in
    (true, {| user := Some user; isAuthenticated := true |})
  else (false, st).

Definition logout (st : AuthState) : AuthState :=
  {| user := None; isAuthenticated := false |}.

(** [register(email, password, name)]; [now] is [Date.now().toString()]. *)
Definition register (now : string) (email password name : string)
    (st : AuthState) : bool * AuthState :=
  if JS.truthy email && JS.truthy password && JS.truthy name then
    let user :=
      {| User.id := now; User.email := email; User.name := name;
         User.role := Role.customer |} in
    (true, {| user := Some user; isAuthenticated := true |})
  else (false, st).

End Auth.

(** *** Admin store *)

Module OrderStatus.
(** ['pending' | 'processing' | 'shipped' | 'delivered' | 'cancelled'] *)
Inductive t := pending | processing | shipped | delivered | cancelled.
End OrderStatus.
Abbreviation OrderStatus := OrderStatus.t.

Module Address.
Record t := mk {
  name : string;
  address : string;
  city : string;
  zipCode : string;
  country : string
}.
End Address.
Abbreviation Address := Address.t.

Module Order.
Record t := mk {
  id : string;
  userId : string;
  items : list CartItem;
  total : number;
  status : OrderStatus;
  shippingAddress : Address;
  createdAt : string;
  updatedAt : string
}.
End Order.
Abbreviation Order := Order.t.

Module Admin.

(** [updateOrderStatus(orderId, status)] on the [orders] of the admin
    store; [now] is [new Date().toISOString()]. *)
Definition updateOrderStatus (now : string) (orderId : string)
    (status : OrderStatus) (orders : list Order) : list Order :=
  map (fun order =>
    if String.eqb (Order.id order) orderId
    then {| Order.id := Order.id order;
            Order.userId := Order.userId order;
            Order.items := Order.items order;
            Order.total := Order.total order;
            Order.status := status;
            Order.shippingAddress := Order.shippingAddress order;
            Order.createdAt := Order.createdAt order;
            Order.updatedAt := now |}
    else order) orders.

End Admin.

(** *** Product store *)

Module Category.
Record t := mk {
  id : string;
  name : string;
  slug : string;
  description : string;
  image : string;
  productCount : number
}.
End Category.
Abbreviation Category := Category.t.

Module Filters.
Record t := mk {
  category : string;
  priceRange : number * number;
  condition : list string;
  brand : list string;
  inStock : bool
}.
End Filters.
Abbreviation Filters := Filters.t.

Module SortBy.
(** ['name' | 'price-low' | 'price-high' | 'rating' | 'newest'] *)
Inductive t := name | price_low | price_high | rating | newest.
End SortBy.
Abbreviation SortBy := SortBy.t.

(** Arrays of products are objects: a variable holds a reference, and
    [sort] updates the array behind it.  The heap is the list of the
    arrays allocated so far; a reference is an index into it. *)
Abbreviation ref := nat.
Abbreviation Heap := (list (list Product)).

Module ProductState.
Record t := mk {
  products : ref;
  categories : list Category;
  filters : Filters;
  sortBy : SortBy;
  searchQuery : string
}.
End ProductState.
Abbreviation ProductState := ProductState.t.

(** The product store and the arrays it can reach. *)
Module World.
Record t := mk { store : ProductState; heap : Heap }.
End World.
Abbreviation World := World.t.

(** Code running against the store: it reads and updates the world. *)
Definition M (A : Type) : Type := World -> A * World.

Definition ret {A} (a : A) : M A := fun w => (a, w).

Definition bind {A B} (c : M A) (k : A -> M B) : M B :=
  fun w => let (a, w') := c w in k a w'.

Notation "x <- c1 ;; c2" := (bind c1 (fun x => c2))
  (at level 100, c1 at next level, right associativity).

(** zustand's [get()]. *)
Definition get : M ProductState := fun w => (World.store w, w).

(** zustand's [set(partial)], as the update of the state record. *)
Definition set (f : ProductState -> ProductState) : M unit :=
  fun w => (tt, {| World.store := f (World.store w); World.heap := World.heap w |}).

(** The elements of the array behind a reference. *)
Definition Array_read (r : ref) : M (list Product) :=
  fun w => (default [] (World.heap w !! r), w).

(** A new array, with a reference no earlier array has. *)
Definition Array_new (xs : list Product) : M ref :=
  fun w => (length (World.heap w),
            {| World.store := World.store w; World.heap := World.heap w ++ [xs] |}).

(** Replace the elements of the array behind a reference. *)
Definition Array_write (r : ref) (xs : list Product) : M unit :=
  fun w => (tt, {| World.store := World.store w;
                   World.heap := <[r := xs]> (World.heap w) |}).

(** [[...xs]] *)
Definition Array_spread (r : ref) : M ref :=
  xs <- Array_read r ;; Array_new xs.

(** [xs.filter(f)]: the result is a new array. *)
Definition Array_filter (r : ref) (f : Product -> bool) : M ref :=
  xs <- Array_read r ;; Array_new (List.filter f xs).

(** [xs.sort(comparefn)]: sorts [xs] itself and returns it. *)
Definition Array_sort (r : ref) (comparefn : Product -> Product -> number) : M ref :=
  xs <- Array_read r ;;
  _ <- Array_write r (JS.Array_sort comparefn xs) ;;
  ret r.

(** [xs.map(f)]: the result is a new array. *)
Definition Array_map (r : ref) (f : Product -> Product) : M ref :=
  xs <- Array_read r ;; Array_new (map f xs).

Module PartialFilters.
(** [Partial<ProductState['filters']>]: the fields that are given. *)
Record t := mk {
  category : option string;
  priceRange : option (number * number);
  condition : option (list string);
  brand : option (list string);
  inStock : option bool
}.
End PartialFilters.
Abbreviation PartialFilters := PartialFilters.t.

Definition defaultFilters : Filters :=
  {| Filters.category := "";
     Filters.priceRange := (0, 5000);
     Filters.condition := [];
     Filters.brand := [];
     Filters.inStock := false |}.

(** The state the product store starts in; [products] is its array, empty
    at the start. *)
Definition initialProductState (products : ref) : ProductState :=
  {| ProductState.products := products;
     ProductState.categories := [];
     ProductState.filters := defaultFilters;
     ProductState.sortBy := SortBy.newest;
     ProductState.searchQuery := "" |}.

Definition setProducts (products : ref) : M unit :=
  set (fun st =>
    {| ProductState.products := products;
       ProductState.categories := ProductState.categories st;
       ProductState.filters := ProductState.filters st;
       ProductState.sortBy := ProductState.sortBy st;
       ProductState.searchQuery := ProductState.searchQuery st |}).

Definition setCategories (categories : list Category) : M unit :=
  set (fun st =>
    {| ProductState.products := ProductState.products st;
       ProductState.categories := categories;
       ProductState.filters := ProductState.filters st;
       ProductState.sortBy := ProductState.sortBy st;
       ProductState.searchQuery := ProductState.searchQuery st |}).

(** [{ ...filters, ...newFilters }] *)
Definition mergeFilters (filters : Filters) (newFilters : PartialFilters) : Filters :=
  {| Filters.category :=
       default (Filters.category filters) (PartialFilters.category newFilters);
     Filters.priceRange :=
       default (Filters.priceRange filters) (PartialFilters.priceRange newFilters);
     Filters.condition :=
       default (Filters.condition filters) (PartialFilters.condition newFilters);
     Filters.brand :=
       default (Filters.brand filters) (PartialFilters.brand newFilters);
     Filters.inStock :=
       default (Filters.inStock filters) (PartialFilters.inStock newFilters) |}.

Definition updateFilters (newFilters : PartialFilters) : M unit :=
  current <- get ;;
  set (fun st =>
    {| ProductState.products := ProductState.products st;
       ProductState.categories := ProductState.categories st;
       ProductState.filters := mergeFilters (ProductState.filters current) newFilters;
       ProductState.sortBy := ProductState.sortBy st;
       ProductState.searchQuery := ProductState.searchQuery st |}).

(** *** Admin store: the catalogue *)

Module PartialProduct.
(** [Partial<Product>]: the fields that are given. *)
Record t := mk {
  id : option string;
  name : option string;
  description : option string;
  price : option number;
  originalPrice : option (option number);
  condition : option Condition;
  category : option string;
  brand : option string;
  images : option (list string);
  specifications : option (list (string * string));
  inStock : option bool;
  stockCount : option number;
  rating : option number;
  reviewCount : option number;
  featured : option bool;
  createdAt : option string
}.
End PartialProduct.
Abbreviation PartialProduct := PartialProduct.t.

(** [{ ...product, ...productData }] *)
Definition mergeProduct (product : Product) (productData : PartialProduct) : Product :=
  {| Product.id := default (Product.id product) (PartialProduct.id productData);
     Product.name := default (Product.name product) (PartialProduct.name productData);
     Product.description :=
       default (Product.description product) (PartialProduct.description productData);
     Product.price := default (Product.price product) (PartialProduct.price productData);
     Product.originalPrice :=
       default (Product.originalPrice product) (PartialProduct.originalPrice productData);
     Product.condition :=
       default (Product.condition product) (PartialProduct.condition productData);
     Product.category :=
       default (Product.category product) (PartialProduct.category productData);
     Product.brand := default (Product.brand product) (PartialProduct.brand productData);
     Product.images := default (Product.images product) (PartialProduct.images productData);
     Product.specifications :=
       default (Product.specifications product)
         (PartialProduct.specifications productData);
     Product.inStock :=
       default (Product.inStock product) (PartialProduct.inStock productData);
     Product.stockCount :=
       default (Product.stockCount product) (PartialProduct.stockCount productData);
     Product.rating := default (Product.rating product) (PartialProduct.rating productData);
     Product.reviewCount :=
       default (Product.reviewCount product) (PartialProduct.reviewCount productData);
     Product.featured :=
       default (Product.featured product) (PartialProduct.featured productData);
     Product.createdAt :=
       default (Product.createdAt product) (PartialProduct.createdAt productData) |}.

(** [addProduct(productData)]; [now] is [Date.now().toString()] and
    [nowISO] is [new Date().toISOString()].  The [id] and [createdAt] of
    [productData], which its type leaves out, are not read. *)
Definition addProduct (now nowISO : string) (productData : Product) : M unit :=
  let newProduct :=
    {| Product.id := now;
       Product.name := Product.name productData;
       Product.description := Product.description productData;
       Product.price := Product.price productData;
       Product.originalPrice := Product.originalPrice productData;
       Product.condition := Product.condition productData;
       Product.category := Product.category productData;
       Product.brand := Product.brand productData;
       Product.images := Product.images productData;
       Product.specifications := Product.specifications productData;
       Product.inStock := Product.inStock productData;
       Product.stockCount := Product.stockCount productData;
       Product.rating := Product.rating productData;
       Product.reviewCount := Product.reviewCount productData;
       Product.featured := Product.featured productData;
       Product.createdAt := nowISO |} in
  productStore <- get ;;
  products <- Array_read (ProductState.products productStore) ;;
  products' <- Array_new (products ++ [newProduct]) ;;
  setProducts products'.

Definition updateProduct (id : string) (productData : PartialProduct) : M unit :=
  productStore <- get ;;
  updatedProducts <-
    Array_map (ProductState.products productStore) (fun product =>
      if String.eqb (Product.id product) id then mergeProduct product productData
      else product) ;;
  setProducts updatedProducts.

Definition deleteProduct (id : string) : M unit :=
  productStore <- get ;;
  updatedProducts <-
    Array_filter (ProductState.products productStore) (fun product =>
      negb (String.eqb (Product.id product) id)) ;;
  setProducts updatedProducts.

(** [addCategory(categoryData)]; the [id] of [categoryData] is not read. *)
Definition addCategory (now : string) (categoryData : Category) : M unit :=
  let newCategory :=
    {| Category.id := now;
       Category.name := Category.name categoryData;
       Category.slug := Category.slug categoryData;
       Category.description := Category.description categoryData;
       Category.image := Category.image categoryData;
       Category.productCount := Category.productCount categoryData |} in
  productStore <- get ;;
  setCategories (ProductState.categories productStore ++ [newCategory]).

Definition deleteCategory (id : string) : M unit :=
  productStore <- get ;;
  setCategories
    (List.filter (fun category => negb (String.eqb (Category.id category) id))
       (ProductState.categories productStore)).

(** *** Admin store: orders and statistics *)

Module Stats.
Record t := mk {
  totalOrders : number;
  totalRevenue : number;
  totalProducts : number;
  totalUsers : number
}.
End Stats.
Abbreviation Stats := Stats.t.

Module AdminState.
Record t := mk { orders : list Order; stats : Stats }.
End AdminState.
Abbreviation AdminState := AdminState.t.

Module AdminStore.
Import AdminState.

Definition initial : AdminState :=
  {| orders := [];
     stats := {| Stats.totalOrders := 0; Stats.totalRevenue := 0;
                 Stats.totalProducts := 0; Stats.totalUsers := 0 |} |}.

Definition setOrders (orders : list Order) (st : AdminState) : AdminState :=
  let totalRevenue :=
    JS.Array_reduce (fun sum order => JS.add sum (Order.total order)) 0 orders in
  {| orders := orders;
     stats :=
       {| Stats.totalOrders := inject_Z (Z.of_nat (length orders));
          Stats.totalRevenue := totalRevenue;
          Stats.totalProducts := Stats.totalProducts (stats st);
          Stats.totalUsers := Stats.totalUsers (stats st) |} |}.

(** [updateOrderStatus(orderId, status)] on the store: the statistics are
    not part of the update. *)
Definition updateOrderStatus (now : string) (orderId : string)
    (status : OrderStatus) (st : AdminState) : AdminState :=
  {| orders := Admin.updateOrderStatus now orderId status (orders st);
     stats := stats st |}.

End AdminStore.

Section ProductStore.
(** [String.prototype.toLowerCase], [String.prototype.localeCompare] and
    [new Date(s).getTime()] are the platform's. *)
Variable toLowerCase : string -> string.
Variable localeCompare : string -> string -> number.
Variable Date_getTime : string -> number.

Definition setSortBy (sortBy : SortBy) : M unit :=
  set (fun st =>
    {| ProductState.products := ProductState.products st;
       ProductState.categories := ProductState.categories st;
       ProductState.filters := ProductState.filters st;
       ProductState.sortBy := sortBy;
       ProductState.searchQuery := ProductState.searchQuery st |}).

Definition setSearchQuery (searchQuery : string) : M unit :=
  set (fun st =>
    {| ProductState.products := ProductState.products st;
       ProductState.categories := ProductState.categories st;
       ProductState.filters := ProductState.filters st;
       ProductState.sortBy := ProductState.sortBy st;
       ProductState.searchQuery := searchQuery |}).

Definition getFilteredProducts : M ref :=
  st <- get ;;
  let products := ProductState.products st in
  let filters := ProductState.filters st in
  let sortBy := ProductState.sortBy st in
  let searchQuery := ProductState.searchQuery st in
  filtered <- Array_spread products ;;
  (* Search filter *)
  filtered <-
    (if JS.truthy searchQuery then
       Array_filter filtered (fun product =>
         JS.String_includes (toLowerCase (Product.name product))
                            (toLowerCase searchQuery) ||
         JS.String_includes (toLowerCase (Product.description product))
                            (toLowerCase searchQuery) ||
         JS.String_includes (toLowerCase (Product.brand product))
                            (toLowerCase searchQuery))
     else ret filtered) ;;
  (* Category filter *)
  filtered <-
    (if JS.truthy (Filters.category filters) then
       Array_filter filtered (fun product =>
         String.eqb (Product.category product) (Filters.category filters))
     else ret filtered) ;;
  (* Price range filter *)
  filtered <-
    Array_filter filtered (fun product =>
      JS.ge (Product.price product) (fst (Filters.priceRange filters)) &&
      JS.le (Product.price product) (snd (Filters.priceRange filters))) ;;
  (* Condition filter *)
  filtered <-
    (if (0 <? length (Filters.condition filters))%nat then
       Array_filter filtered (fun product =>
         JS.Array_includes (Filters.condition filters)
           (Condition_string (Product.condition product)))
     else ret filtered) ;;
  (* Brand filter *)
  filtered <-
    (if (0 <? length (Filters.brand filters))%nat then
       Array_filter filtered (fun product =>
         JS.Array_includes (Filters.brand filters) (Product.brand product))
     else ret filtered) ;;
  (* In stock filter *)
  filtered <-
    (if Filters.inStock filters then
       Array_filter filtered (fun product => Product.inStock product)
     else ret filtered) ;;
  (* Sorting *)
  _ <-
    match sortBy with
    | SortBy.name =>
        Array_sort filtered (fun a b =>
          localeCompare (Product.name a) (Product.name b))
    | SortBy.price_low =>
        Array_sort filtered (fun a b => Product.price a - Product.price b)
    | SortBy.price_high =>
        Array_sort filtered (fun a b => Product.price b - Product.price a)
    | SortBy.rating =>
        Array_sort filtered (fun a b => Product.rating b - Product.rating a)
    | SortBy.newest =>
        Array_sort filtered (fun a b =>
          Date_getTime (Product.createdAt b) - Date_getTime (Product.createdAt a))
    end ;;
  ret filtered.

End ProductStore.

End Store.

(** ** The category management page *)

Module CategoryManagementPage.
Import Store.

(** The [useState] cells of the component. *)
Module PageState.
Record t := mk {
  searchQuery : string;
  showDeleteModal : bool;
  categoryToDelete : option string
}.
End PageState.
Abbreviation PageState := PageState.t.

Definition initial : PageState :=
  {| PageState.searchQuery := "";
     PageState.showDeleteModal := false;
     PageState.categoryToDelete := None |}.

Section Page.
Variable toLowerCase : string -> string.

Definition filteredCategories (categories : list Category) (searchQuery : string)
  : list Category :=
  List.filter (fun category =>
    JS.String_includes (toLowerCase (Category.name category)) (toLowerCase searchQuery) ||
    JS.String_includes (toLowerCase (Category.description category))
                       (toLowerCase searchQuery))
    categories.

End Page.

Definition handleDeleteCategory (id : string) (page : PageState) : PageState :=
  {| PageState.searchQuery := PageState.searchQuery page;
     PageState.showDeleteModal := true;
     PageState.categoryToDelete := Some id |}.

(** [confirmDelete()]: the page state and the world of the stores after. *)
Definition confirmDelete (page : PageState) (w : World) : PageState * World :=
  match PageState.categoryToDelete page with
  | Some categoryToDelete =>
      if JS.truthy categoryToDelete then
        ({| PageState.searchQuery := PageState.searchQuery page;
            PageState.showDeleteModal := false;
            PageState.categoryToDelete := None |},
         snd (deleteCategory categoryToDelete w))
      else (page, w)
  | None => (page, w)
  end.

(** The total shown under "Total Products". *)
Definition totalProducts (categories : list Category) : number :=
  JS.Array_reduce (fun sum cat => JS.add sum (Category.productCount cat)) 0 categories.

End CategoryManagementPage.

(** ** The REST handlers, [backend/src/routes] *)

Module Backend.

(** A [Date], in milliseconds since the epoch. *)
Definition Date := Z.

(** *** Documents *)

Module ProductDoc.
Record t := mk {
  _id : string;
  name : string;
  price : number;
  stockCount : number;
  isActive : bool;
  images : list string
}.
End ProductDoc.
Abbreviation ProductDoc := ProductDoc.t.

Module ShippingAddress.
Record t := mk {
  firstName : string;
  lastName : string;
  email : string;
  address : string;
  city : string;
  zipCode : string
}.
End ShippingAddress.
Abbreviation ShippingAddress := ShippingAddress.t.

Module OrderItem.
Record t := mk {
  product : string;
  name : string;
  price : number;
  quantity : number;
  image : option string
}.
End OrderItem.
Abbreviation OrderItem := OrderItem.t.

Module PaymentResult.
Record t := mk {
  id : string;
  status : string;
  updateTime : string;
  emailAddress : string
}.
End PaymentResult.
Abbreviation PaymentResult := PaymentResult.t.

Module Order.
Record t := mk {
  user : string;
  items : list OrderItem;
  shippingAddress : ShippingAddress;
  paymentMethod : string;
  itemsPrice : number;
  taxPrice : number;
  shippingPrice : number;
  totalPrice : number;
  isPaid : bool;
  paidAt : option Date;
  paymentResult : option PaymentResult;
  status : string;
  trackingNumber : option string;
  isDelivered : bool;
  deliveredAt : option Date
}.
End Order.
Abbreviation Order := Order.t.

(** The two collections the handlers touch. *)
Module DB.
Record t := mk {
  products : gmap string ProductDoc;
  orders : gmap string Order
}.
End DB.
Abbreviation DB := DB.t.

(** *** Responses *)

Inductive Body :=
| Json (success : bool) (message : string) (errors : list string)
       (order : option Order)
| Text (text : string)
| Received.

Module Response.
Record t := mk { status : nat; body : Body }.
End Response.
Abbreviation Response := Response.t.

(** [res.status(code).json({ success: false, message })] *)
Definition failure (code : nat) (message : string) : Response :=
  {| Response.status := code; Response.body := Json false message [] None |}.

(** *** Requests *)

Module ItemReq.
Record t := mk { product : string; quantity : number }.
End ItemReq.
Abbreviation ItemReq := ItemReq.t.

Module OrderReq.
Record t := mk {
  items : list ItemReq;
  shippingAddress : ShippingAddress;
  paymentMethod : string
}.
End OrderReq.
Abbreviation OrderReq := OrderReq.t.

Module StatusReq.
Record t := mk { status : string; trackingNumber : option string }.
End StatusReq.
Abbreviation StatusReq := StatusReq.t.

Module ConfirmReq.
Record t := mk { paymentIntentId : string; orderId : string }.
End ConfirmReq.
Abbreviation ConfirmReq := ConfirmReq.t.

(** *** Stripe *)

Module PaymentIntent.
Record t := mk {
  id : string;
  status : string;
  receipt_email : option string;
  metadata_userId : string;
  metadata_orderId : string
}.
End PaymentIntent.
Abbreviation PaymentIntent := PaymentIntent.t.

Module Event.
Record t := mk { type : string; data_object : PaymentIntent }.
End Event.
Abbreviation Event := Event.t.

(** The payment intents Stripe holds, by id. *)
Abbreviation Stripe := (gmap string PaymentIntent).

(** [body(field).isIn(values)] *)
Definition isIn (values : list string) (value : string) : bool :=
  existsb (String.eqb value) values.

Definition statusLabels : list string :=
  ["pending"; "processing"; "shipped"; "delivered"; "cancelled"]%string.

Definition paymentMethods : list string :=
  ["stripe"; "paypal"; "cash_on_delivery"]%string.

(** A validator of the chain: its message is reported when it fails. *)
Definition check (ok : bool) (message : string) : list string :=
  if ok then [] else [message].

(** [res.status(400).json({ success: false, message: 'Validation failed',
    errors: errors.array() })] *)
Definition validationFailed (errors : list string) : Response :=
  {| Response.status := 400;
     Response.body := Json false "Validation failed" errors None |}.

(** [.isLength({ min: 1 })] *)
Definition isLength_min1 (s : string) : bool := (1 <=? String.length s)%nat.

(** Modelled from the spec: the Order schema ([models/Order]) is not among
    the sources.  [Order.create] stores the fields the handler gives it.
    The fields the handler does not give are the defaults of the schema,
    which the specification does not state; they are written here as an
    unpaid, undelivered order with the first status label, and no property
    below is about them. *)
Definition Order_create (user : string) (items : list OrderItem)
    (shippingAddress : ShippingAddress) (paymentMethod : string)
    (itemsPrice taxPrice shippingPrice totalPrice : number) : Order :=
  {| Order.user := user;
     Order.items := items;
     Order.shippingAddress := shippingAddress;
     Order.paymentMethod := paymentMethod;
     Order.itemsPrice := itemsPrice;
     Order.taxPrice := taxPrice;
     Order.shippingPrice := shippingPrice;
     Order.totalPrice := totalPrice;
     Order.isPaid := false;
     Order.paidAt := None;
     Order.paymentResult := None;
     Order.status := "pending";
     Order.trackingNumber := None;
     Order.isDelivered := false;
     Order.deliveredAt := None |}.

(** Assignments to the fields of an order document. *)
Definition set_status (status : string) (o : Order) : Order :=
  Order.mk (Order.user o) (Order.items o) (Order.shippingAddress o)
    (Order.paymentMethod o) (Order.itemsPrice o) (Order.taxPrice o)
    (Order.shippingPrice o) (Order.totalPrice o) (Order.isPaid o)
    (Order.paidAt o) (Order.paymentResult o) status
    (Order.trackingNumber o) (Order.isDelivered o) (Order.deliveredAt o).

Definition set_trackingNumber (trackingNumber : string) (o : Order) : Order :=
  Order.mk (Order.user o) (Order.items o) (Order.shippingAddress o)
    (Order.paymentMethod o) (Order.itemsPrice o) (Order.taxPrice o)
    (Order.shippingPrice o) (Order.totalPrice o) (Order.isPaid o)
    (Order.paidAt o) (Order.paymentResult o) (Order.status o)
    (Some trackingNumber) (Order.isDelivered o) (Order.deliveredAt o).

Definition set_delivered (deliveredAt : Date) (o : Order) : Order :=
  Order.mk (Order.user o) (Order.items o) (Order.shippingAddress o)
    (Order.paymentMethod o) (Order.itemsPrice o) (Order.taxPrice o)
    (Order.shippingPrice o) (Order.totalPrice o) (Order.isPaid o)
    (Order.paidAt o) (Order.paymentResult o) (Order.status o)
    (Order.trackingNumber o) true (Some deliveredAt).

Definition set_paid (paidAt : Date) (o : Order) : Order :=
  Order.mk (Order.user o) (Order.items o) (Order.shippingAddress o)
    (Order.paymentMethod o) (Order.itemsPrice o) (Order.taxPrice o)
    (Order.shippingPrice o) (Order.totalPrice o) true
    (Some paidAt) (Order.paymentResult o) (Order.status o)
    (Order.trackingNumber o) (Order.isDelivered o) (Order.deliveredAt o).

Definition set_paymentResult (paymentResult : PaymentResult) (o : Order) : Order :=
  Order.mk (Order.user o) (Order.items o) (Order.shippingAddress o)
    (Order.paymentMethod o) (Order.itemsPrice o) (Order.taxPrice o)
    (Order.shippingPrice o) (Order.totalPrice o) (Order.isPaid o)
    (Order.paidAt o) (Some paymentResult) (Order.status o)
    (Order.trackingNumber o) (Order.isDelivered o) (Order.deliveredAt o).

(** [Product.findByIdAndUpdate(id, { $inc: { stockCount: by } })]: a
    missing document is left missing. *)
Definition Product_incStockCount (id : string) (by_ : number)
    (products : gmap string ProductDoc) : gmap string ProductDoc :=
  alter (fun p =>
    ProductDoc.mk (ProductDoc._id p) (ProductDoc.name p) (ProductDoc.price p)
      (ProductDoc.stockCount p + by_) (ProductDoc.isActive p)
      (ProductDoc.images p)) id products.

(** *** [POST /api/orders], after [auth] *)

(** The first loop of the handler: it stops at the first item that is
    refused and otherwise accumulates [itemsPrice] and [orderItems]. *)
Fixpoint validateItems (products : gmap string ProductDoc) (items : list ItemReq)
    (itemsPrice : number) (orderItems : list OrderItem)
  : Response + number * list OrderItem :=
  match items with
  | [] => inr (itemsPrice, orderItems)
  | item :: rest =>
      match products !! ItemReq.product item with
      | None =>
          inl (failure 400
                 ("Product " ++ ItemReq.product item ++ " not found or inactive"))
      | Some product =>
          if negb (ProductDoc.isActive product) then
            inl (failure 400
                   ("Product " ++ ItemReq.product item ++ " not found or inactive"))
          else if JS.lt (ProductDoc.stockCount product) (ItemReq.quantity item) then
            inl (failure 400
                   ("Insufficient stock for " ++ ProductDoc.name product))
          else
            let orderItem :=
              {| OrderItem.product := ProductDoc._id product;
                 OrderItem.name := ProductDoc.name product;
                 OrderItem.price := ProductDoc.price product;
                 OrderItem.quantity := ItemReq.quantity item;
                 OrderItem.image := head (ProductDoc.images product) |} in
            validateItems products rest
              (JS.add itemsPrice
                 (JS.mul (ProductDoc.price product) (ItemReq.quantity item)))
              (orderItems ++ [orderItem])
      end
  end.

(** The second loop: one [$inc] of [-item.quantity] per item. *)
Definition updateStock (items : list ItemReq)
    (products : gmap string ProductDoc) : gmap string ProductDoc :=
  fold_left (fun products item =>
    Product_incStockCount (ItemReq.product item) (- ItemReq.quantity item) products)
    items products.

(** *** [GET /api/orders/:id], after [auth] *)

(** [req.user], as [auth] leaves it. *)
Module ReqUser.
Record t := mk { id : string; role : string }.
End ReqUser.
Abbreviation ReqUser := ReqUser.t.

(** The body of the success answer has no message; it is given the empty
    one here. *)
Definition getOrder (user : ReqUser) (id : string) (db : DB) : Response :=
  match DB.orders db !! id with
  | None => failure 404 "Order not found"
  | Some order =>
      (* Check if user owns the order or is admin *)
      if negb (String.eqb (Order.user order) (ReqUser.id user)) &&
         negb (String.eqb (ReqUser.role user) "admin")
      then failure 403 "Access denied"
      else {| Response.status := 200;
              Response.body := Json true "" [] (Some order) |}
  end.

(** *** [POST /api/payments/create-payment-intent], after [auth] *)

Module IntentReq.
Record t := mk {
  amount : number;
  currency : option string;
  orderId : option string
}.
End IntentReq.
Abbreviation IntentReq := IntentReq.t.

(** The argument of [stripe.paymentIntents.create]. *)
Module IntentParams.
Record t := mk {
  amount : Z;
  currency : string;
  metadata_userId : string;
  metadata_orderId : string
}.
End IntentParams.
Abbreviation IntentParams := IntentParams.t.

(** [Math.round] of a double: the nearest integer, halves going up. *)
Definition Math_round (x : number) : Z := Qfloor (x + 0.5).




(** *** [GET /api/products/:id] and [DELETE /api/products/:id] *)

Module ProductResponse.
Record t := mk {
  status : nat;
  success : bool;
  message : string;
  product : option ProductDoc
}.
End ProductResponse.
Abbreviation ProductResponse := ProductResponse.t.

(** The body of the success answer has no message; it is given the empty
    one here. *)
Definition getProduct (id : string) (db : DB) : ProductResponse :=
  match DB.products db !! id with
  | None =>
      {| ProductResponse.status := 404; ProductResponse.success := false;
         ProductResponse.message := "Product not found";
         ProductResponse.product := None |}
  | Some product =>
      if negb (ProductDoc.isActive product) then
        {| ProductResponse.status := 404; ProductResponse.success := false;
           ProductResponse.message := "Product not found";
           ProductResponse.product := None |}
      else
        {| ProductResponse.status := 200; ProductResponse.success := true;
           ProductResponse.message := "";
           ProductResponse.product := Some product |}
  end.

(** After [auth] and [adminAuth]. *)
Definition deleteProduct (id : string) (db : DB) : ProductResponse * DB :=
  match DB.products db !! id with
  | None =>
      ({| ProductResponse.status := 404; ProductResponse.success := false;
          ProductResponse.message := "Product not found";
          ProductResponse.product := None |}, db)
  | Some product =>
      (* Soft delete by setting isActive to false *)
      let product :=
        ProductDoc.mk (ProductDoc._id product) (ProductDoc.name product)
          (ProductDoc.price product) (ProductDoc.stockCount product) false
          (ProductDoc.images product) in
      ({| ProductResponse.status := 200; ProductResponse.success := true;
          ProductResponse.message := "Product deleted successfully";
          ProductResponse.product := None |},
       {| DB.products := <[id := product]> (DB.products db);
          DB.orders := DB.orders db |})
  end.

Section Handlers.
(** Validators and helpers of express-validator, Date and Stripe. *)
Variable trim : string -> string.
Variable isEmail : string -> bool.
Variable isMongoId : string -> bool.
Variable toISOString : Date -> string.
Variable constructEvent : string -> string -> string -> string + Event.

Definition validateOrder (req : OrderReq) : list string :=
  let shippingAddress := OrderReq.shippingAddress req in
  check (1 <=? length (OrderReq.items req))%nat
    "Order must contain at least one item" ++
  check (isLength_min1 (trim (ShippingAddress.firstName shippingAddress)))
    "First name is required" ++
  check (isLength_min1 (trim (ShippingAddress.lastName shippingAddress)))
    "Last name is required" ++
  check (isEmail (ShippingAddress.email shippingAddress))
    "Valid email is required" ++
  check (isLength_min1 (trim (ShippingAddress.address shippingAddress)))
    "Address is required" ++
  check (isLength_min1 (trim (ShippingAddress.city shippingAddress)))
    "City is required" ++
  check (isLength_min1 (trim (ShippingAddress.zipCode shippingAddress)))
    "ZIP code is required" ++
  check (isIn paymentMethods (OrderReq.paymentMethod req))
    "Invalid payment method".

(** [user] is the authenticated user's id and [_id] the id mongoose
    gives the new document.  The confirmation e-mail is sent last and its
    failure is ignored; it touches neither collection. *)
Definition createOrder (user _id : string) (req : OrderReq) (db : DB)
  : Response * DB :=
  match validateOrder req with
  | (_ :: _) as errors => (validationFailed errors, db)
  | [] =>
      let items := OrderReq.items req in
      let shippingAddress := OrderReq.shippingAddress req in
      let paymentMethod := OrderReq.paymentMethod req in
      (* Validate and calculate order totals *)
      match validateItems (DB.products db) items 0 [] with
      | inl res => (res, db)
      | inr (itemsPrice, orderItems) =>
          (* Calculate shipping and tax *)
          let shippingPrice := if JS.ge itemsPrice 50 then 0 else 9.99 in
          let taxPrice := JS.mul itemsPrice 0.08 in
          let totalPrice := JS.add (JS.add itemsPrice shippingPrice) taxPrice in
          (* Create order *)
          let order :=
            Order_create user orderItems shippingAddress paymentMethod
              itemsPrice taxPrice shippingPrice totalPrice in
          let orders := <[_id := order]> (DB.orders db) in
          (* Update product stock *)
          let products := updateStock items (DB.products db) in
          ({| Response.status := 201;
              Response.body :=
                Json true "Order created successfully" [] (Some order) |},
           {| DB.products := products; DB.orders := orders |})
      end
  end.

(** *** [PUT /api/orders/:id/status], after [auth] and [adminAuth] *)

Definition updateOrderStatus (now : Date) (id : string) (req : StatusReq)
    (db : DB) : Response * DB :=
  match check (isIn statusLabels (StatusReq.status req)) "Invalid status" with
  | (_ :: _) as errors => (validationFailed errors, db)
  | [] =>
      let status := StatusReq.status req in
      match DB.orders db !! id with
      | None => (failure 404 "Order not found", db)
      | Some order =>
          let order := set_status status order in
          let order :=
            match StatusReq.trackingNumber req with
            | Some trackingNumber =>
                if JS.truthy trackingNumber
                then set_trackingNumber trackingNumber order else order
            | None => order
            end in
          let order :=
            if String.eqb status "delivered" then set_delivered now order
            else order in
          ({| Response.status := 200;
              Response.body :=
                Json true "Order status updated successfully" [] (Some order) |},
           {| DB.products := DB.products db;
              DB.orders := <[id := order]> (DB.orders db) |})
      end
  end.

(** *** [POST /api/payments/confirm-payment], after [auth] *)

Definition validateConfirm (req : ConfirmReq) : list string :=
  check (isLength_min1 (ConfirmReq.paymentIntentId req))
    "Payment intent ID is required" ++
  check (isMongoId (ConfirmReq.orderId req)) "Valid order ID is required".

(** [stripe.paymentIntents.retrieve] throws for an id Stripe does not
    know; the handler's [catch] answers 500. *)
Definition confirmPayment (now : Date) (user : string) (req : ConfirmReq)
    (stripe : Stripe) (db : DB) : Response * DB :=
  match validateConfirm req with
  | (_ :: _) as errors => (validationFailed errors, db)
  | [] =>
      let paymentIntentId := ConfirmReq.paymentIntentId req in
      let orderId := ConfirmReq.orderId req in
      (* Verify payment with Stripe *)
      match stripe !! paymentIntentId with
      | None => (failure 500 "Server error while confirming payment", db)
      | Some paymentIntent =>
          if negb (String.eqb (PaymentIntent.status paymentIntent) "succeeded")
          then (failure 400 "Payment not completed", db)
          else
            (* Update order *)
            match DB.orders db !! orderId with
            | None => (failure 403 "Order not found or access denied", db)
            | Some order =>
                if negb (String.eqb (Order.user order) user)
                then (failure 403 "Order not found or access denied", db)
                else
                  let order := set_paid now order in
                  let order :=
                    set_paymentResult
                      {| PaymentResult.id := PaymentIntent.id paymentIntent;
                         PaymentResult.status :=
                           PaymentIntent.status paymentIntent;
                         PaymentResult.updateTime := toISOString now;
                         PaymentResult.emailAddress :=
                           default ""%string
                             (PaymentIntent.receipt_email paymentIntent) |}
                      order in
                  let order := set_status "processing" order in
                  ({| Response.status := 200;
                      Response.body :=
                        Json true "Payment confirmed successfully" []
                          (Some order) |},
                   {| DB.products := DB.products db;
                      DB.orders := <[orderId := order]> (DB.orders db) |})
            end
      end
  end.

(** *** [POST /api/payments/webhook] *)

(** [Order.findByIdAndUpdate(id, { isPaid: true, paidAt, status:
    'processing' })]: a missing document is left missing. *)
Definition Order_markPaid (id : string) (paidAt : Date)
    (orders : gmap string Order) : gmap string Order :=
  alter (fun o => set_status "processing" (set_paid paidAt o)) id orders.

(** [endpointSecret] is [process.env.STRIPE_WEBHOOK_SECRET]; [sig] is the
    [stripe-signature] header and [body] the raw request body. *)
Definition webhook (now : Date) (endpointSecret : option string)
    (sig body : string) (db : DB) : Response * DB :=
  match endpointSecret with
  | Some secret =>
      if JS.truthy secret then
        match constructEvent body sig secret with
        | inl message =>
            ({| Response.status := 400;
                Response.body := Text ("Webhook Error: " ++ message) |}, db)
        | inr event =>
            (* Handle the event *)
            let db' :=
              if String.eqb (Event.type event) "payment_intent.succeeded" then
                let paymentIntent := Event.data_object event in
                (* Update order status if needed *)
                if JS.truthy (PaymentIntent.metadata_orderId paymentIntent) then
                  {| DB.products := DB.products db;
                     DB.orders :=
                       Order_markPaid
                         (PaymentIntent.metadata_orderId paymentIntent) now
                         (DB.orders db) |}
                else db
              else db in
            ({| Response.status := 200; Response.body := Received |}, db')
        end
      else
        ({| Response.status := 400;
            Response.body := Text "Webhook secret not configured" |}, db)
  | None =>
      ({| Response.status := 400;
          Response.body := Text "Webhook secret not configured" |}, db)
  end.

End Handlers.

End Backend.

(** ** The auth controller *)

Module AuthController.

Module UserDoc.
Record t := mk {
  id : string;
  name : string;
  email : string;
  password : string;
  lastLogin : option Backend.Date
}.
End UserDoc.
Abbreviation UserDoc := UserDoc.t.

Module AuthResponse.
Record t := mk {
  status : nat;
  success : bool;
  message : string;
  errors : list string;
  user : option UserDoc;
  token : option string
}.
End AuthResponse.
Abbreviation AuthResponse := AuthResponse.t.

Definition failure (status : nat) (message : string) : AuthResponse :=
  {| AuthResponse.status := status; AuthResponse.success := false;
     AuthResponse.message := message; AuthResponse.errors := [];
     AuthResponse.user := None; AuthResponse.token := None |}.

(** [User.findOne({ email })] on the users collection. *)
Definition findOne (email : string) (users : list UserDoc) : option UserDoc :=
  List.find (fun user => String.eqb (UserDoc.email user) email) users.

(** [user.save()]: the document of that id is replaced. *)
Definition save (user : UserDoc) (users : list UserDoc) : list UserDoc :=
  map (fun u => if String.eqb (UserDoc.id u) (UserDoc.id user) then user else u) users.

Section Controller.
(** [jwt.sign({ id }, secret, { expiresIn: '30d' })] is the library's.
    Modelled from the spec: the User model ([models/User]) is not among the
    sources; [User_create] is the document [User.create] stores for a name,
    an e-mail and a password, and [comparePassword] the method of that
    name. *)
Variable jwt_sign : string -> string -> string.
Variable User_create : string -> string -> string -> UserDoc.
Variable comparePassword : UserDoc -> string -> bool.

(** [JWT_SECRET] is [process.env.JWT_SECRET]. *)
Definition generateToken (JWT_SECRET : option string) (id : string) : string :=
  jwt_sign id
    (match JWT_SECRET with
     | Some secret => if JS.truthy secret then secret else "fallback_secret"%string
     | None => "fallback_secret"%string
     end).

(** [errors] is [validationResult(req)], from validators that are not among
    the sources. *)
Definition register (JWT_SECRET : option string) (errors : list string)
    (name email password : string) (users : list UserDoc)
  : AuthResponse * list UserDoc :=
  match errors with
  | _ :: _ =>
      ({| AuthResponse.status := 400; AuthResponse.success := false;
          AuthResponse.message := "Validation failed";
          AuthResponse.errors := errors;
          AuthResponse.user := None; AuthResponse.token := None |}, users)
  | [] =>
      (* Check if user already exists *)
      match findOne email users with
      | Some _ => (failure 400 "User already exists with this email", users)
      | None =>
          (* Create user *)
          let user := User_create name email password in
          let token := generateToken JWT_SECRET (UserDoc.id user) in
          ({| AuthResponse.status := 201; AuthResponse.success := true;
              AuthResponse.message := "User registered successfully";
              AuthResponse.errors := [];
              AuthResponse.user := Some user; AuthResponse.token := Some token |},
           users ++ [user])
      end
  end.

Definition login (JWT_SECRET : option string) (now : Backend.Date)
    (errors : list string) (email password : string) (users : list UserDoc)
  : AuthResponse * list UserDoc :=
  match errors with
  | _ :: _ =>
      ({| AuthResponse.status := 400; AuthResponse.success := false;
          AuthResponse.message := "Validation failed";
          AuthResponse.errors := errors;
          AuthResponse.user := None; AuthResponse.token := None |}, users)
  | [] =>
      (* Find user and include password *)
      match findOne email users with
      | None => (failure 401 "Invalid credentials", users)
      | Some user =>
          (* Check password *)
          if negb (comparePassword user password)
          then (failure 401 "Invalid credentials", users)
          else
            (* Update last login *)
            let user :=
              UserDoc.mk (UserDoc.id user) (UserDoc.name user) (UserDoc.email user)
                (UserDoc.password user) (Some now) in
            let token := generateToken JWT_SECRET (UserDoc.id user) in
            ({| AuthResponse.status := 200; AuthResponse.success := true;
                AuthResponse.message := "Login successful";
                AuthResponse.errors := [];
                AuthResponse.user := Some user; AuthResponse.token := Some token |},
             save user users)
      end
  end.

End Controller.

End AuthController.

(** ** Vocabulary of the specification *)

Module Spec.
Import Store.

(** The sum of a list of numbers. *)
Fixpoint sum (xs : list number) : number :=
  match xs with
  | [] => 0
  | x :: rest => x + sum rest
  end.

(** The sum of a list of numbers as a program adds them up: from 0, from
    left to right, every addition rounded to a double. *)
Definition total (xs : list number) : number := fold_left JS.add xs 0.



(** The product ids of the cart's items, in cart order. *)
Definition cartIds (st : CartState) : list string :=
  map (fun item => Product.id (CartItem.product item)) (CartState.items st).


(** The store knows a user exactly when it says someone is signed in. *)
Definition signedInConsistently (st : AuthState) : Prop :=
  AuthState.isAuthenticated st = true <-> AuthState.user st <> None.

(** [sub] occurs in [s]. *)
Definition contains (s sub : string) : Prop :=
  exists before after : string, s = (before ++ sub ++ after)%string.

Section Catalogue.
Variable toLowerCase : string -> string.
Variable localeCompare : string -> string -> number.
Variable Date_getTime : string -> number.

(** [s] contains the query, letter case aside. *)
Definition containsIgnoringCase (s query : string) : Prop :=
  contains (toLowerCase s) (toLowerCase query).

(** The product passes every active filter of the store. *)
Definition satisfies (st : ProductState) (p : Product) : Prop :=
  let filters := ProductState.filters st in
  let query := ProductState.searchQuery st in
  (query <> ""%string ->
     containsIgnoringCase (Product.name p) query \/
     containsIgnoringCase (Product.description p) query \/
     containsIgnoringCase (Product.brand p) query) /\
  (Filters.category filters <> ""%string ->
     Product.category p = Filters.category filters) /\
  (fst (Filters.priceRange filters) <= Product.price p /\
   Product.price p <= snd (Filters.priceRange filters)) /\
  (Filters.condition filters <> [] ->
     In (Condition_string (Product.condition p)) (Filters.condition filters)) /\
  (Filters.brand filters <> [] ->
     In (Product.brand p) (Filters.brand filters)) /\
  (Filters.inStock filters = true -> Product.inStock p = true).

(** [a] may come before [b] under the sort key. *)
Definition ordered (sortBy : SortBy) (a b : Product) : Prop :=
  match sortBy with
  | SortBy.name => localeCompare (Product.name a) (Product.name b) <= 0
  | SortBy.price_low => Product.price a <= Product.price b
  | SortBy.price_high => Product.price b <= Product.price a
  | SortBy.rating => Product.rating b <= Product.rating a
  | SortBy.newest =>
      Date_getTime (Product.createdAt b) <= Date_getTime (Product.createdAt a)
  end.

(** A consistent comparator, as [Array.prototype.sort] expects: it
    orders any two strings one way or the other, transitively. *)
Definition consistent : Prop :=
  (forall a b, 0 < localeCompare a b -> localeCompare b a <= 0) /\
  (forall a b c, localeCompare a b <= 0 -> localeCompare b c <= 0 ->
                 localeCompare a c <= 0).

(** The filters of [getFilteredProducts], as one test on a product. *)
Definition keeps (st : ProductState) (product : Product) : bool :=
  let filters := ProductState.filters st in
  let searchQuery := ProductState.searchQuery st in
  (if JS.truthy searchQuery then
     JS.String_includes (toLowerCase (Product.name product))
                        (toLowerCase searchQuery) ||
     JS.String_includes (toLowerCase (Product.description product))
                        (toLowerCase searchQuery) ||
     JS.String_includes (toLowerCase (Product.brand product))
                        (toLowerCase searchQuery)
   else true) &&
  (if JS.truthy (Filters.category filters) then
     String.eqb (Product.category product) (Filters.category filters)
   else true) &&
  (JS.ge (Product.price product) (fst (Filters.priceRange filters)) &&
   JS.le (Product.price product) (snd (Filters.priceRange filters))) &&
  (if (0 <? length (Filters.condition filters))%nat then
     JS.Array_includes (Filters.condition filters)
       (Condition_string (Product.condition product))
   else true) &&
  (if (0 <? length (Filters.brand filters))%nat then
     JS.Array_includes (Filters.brand filters) (Product.brand product)
   else true) &&
  (if Filters.inStock filters then Product.inStock product else true).

(** The comparator [getFilteredProducts] sorts with. *)
Definition comparator (sortBy : SortBy) (a b : Product) : number :=
  match sortBy with
  | SortBy.name => localeCompare (Product.name a) (Product.name b)
  | SortBy.price_low => Product.price a - Product.price b
  | SortBy.price_high => Product.price b - Product.price a
  | SortBy.rating => Product.rating b - Product.rating a
  | SortBy.newest =>
      Date_getTime (Product.createdAt b) - Date_getTime (Product.createdAt a)
  end.

(** The products [getFilteredProducts] returns in a world. *)
Definition shown (w : World) : list Product :=
  let run := getFilteredProducts toLowerCase localeCompare Date_getTime w in
  default [] (World.heap (snd run) !! fst run).

End Catalogue.

(** The products the store holds in a world. *)
Definition stored (w : World) : list Product :=
  default [] (World.heap w !! ProductState.products (World.store w)).

(** The store's reference to its products points to an allocated array. *)
Definition wellFormed (w : World) : Prop :=
  (ProductState.products (World.store w) < length (World.heap w))%nat.

(** [w] is [w0] with more arrays allocated, and [r] is one of the new
    arrays, with elements [xs]. *)
Definition holds (w0 : World) (xs : list Product) (r : ref) (w : World) : Prop :=
  World.store w = World.store w0 /\
  (exists more, World.heap w = World.heap w0 ++ more) /\
  (length (World.heap w0) <= r)%nat /\
  World.heap w !! r = Some xs.

End Spec.

(** ** Vocabulary of the specification: orders and payments *)

Module OrderSpec.
Import Backend.

(** The item names an active product with enough stock. *)
Definition resolves (products : gmap string ProductDoc) (item : ItemReq) : Prop :=
  exists product,
    products !! ItemReq.product item = Some product /\
    ProductDoc.isActive product = true /\
    ItemReq.quantity item <= ProductDoc.stockCount product.

(** The item names a product that is missing or inactive, or asks for more
    than is in stock. *)
Definition refused (products : gmap string ProductDoc) (item : ItemReq) : Prop :=
  products !! ItemReq.product item = None \/
  exists product,
    products !! ItemReq.product item = Some product /\
    (ProductDoc.isActive product = false \/
     ProductDoc.stockCount product < ItemReq.quantity item).

(** Price of the product an item names, times the quantity asked for. *)
Definition lineTotal (products : gmap string ProductDoc) (item : ItemReq) : number :=
  match products !! ItemReq.product item with
  | Some product => JS.mul (ProductDoc.price product) (ItemReq.quantity item)
  | None => 0
  end.




(** Two product documents that differ at most in their stock count. *)
Definition sameProductDetails (p p' : ProductDoc) : Prop :=
  ProductDoc._id p' = ProductDoc._id p /\
  ProductDoc.name p' = ProductDoc.name p /\
  ProductDoc.price p' = ProductDoc.price p /\
  ProductDoc.isActive p' = ProductDoc.isActive p /\
  ProductDoc.images p' = ProductDoc.images p.

(** One of the five status labels. *)
Definition isStatusLabel (status : string) : Prop :=
  status = "pending"%string \/ status = "processing"%string \/
  status = "shipped"%string \/ status = "delivered"%string \/
  status = "cancelled"%string.

(** Two orders that differ at most in their status, tracking number and
    delivery fields. *)
Definition sameOrderDetails (o o' : Order) : Prop :=
  Order.user o' = Order.user o /\
  Order.items o' = Order.items o /\
  Order.shippingAddress o' = Order.shippingAddress o /\
  Order.paymentMethod o' = Order.paymentMethod o /\
  Order.itemsPrice o' = Order.itemsPrice o /\
  Order.taxPrice o' = Order.taxPrice o /\
  Order.shippingPrice o' = Order.shippingPrice o /\
  Order.totalPrice o' = Order.totalPrice o /\
  Order.isPaid o' = Order.isPaid o /\
  Order.paidAt o' = Order.paidAt o /\
  Order.paymentResult o' = Order.paymentResult o.

(** The payment state of an order. *)
Definition paymentState (o : Order) : bool * option Date * string :=
  (Order.isPaid o, Order.paidAt o, Order.status o).

Section Payments.
Variable isMongoId : string -> bool.
Variable toISOString : Date -> string.

(** The handler retrieves [paymentIntent] from Stripe: the request has
    passed the validators and Stripe knows the id it names. *)
Definition retrieved (req : ConfirmReq) (stripe : Stripe)
    (paymentIntent : PaymentIntent) : Prop :=
  validateConfirm isMongoId req = [] /\
  stripe !! ConfirmReq.paymentIntentId req = Some paymentIntent.

(** The order marked paid at [now] by [paymentIntent]: paid, with the
    payment result recorded and status [processing]; the rest is kept. *)
Definition paid (now : Date) (paymentIntent : PaymentIntent) (o : Order) : Order :=
  {| Order.user := Order.user o;
     Order.items := Order.items o;
     Order.shippingAddress := Order.shippingAddress o;
     Order.paymentMethod := Order.paymentMethod o;
     Order.itemsPrice := Order.itemsPrice o;
     Order.taxPrice := Order.taxPrice o;
     Order.shippingPrice := Order.shippingPrice o;
     Order.totalPrice := Order.totalPrice o;
     Order.isPaid := true;
     Order.paidAt := Some now;
     Order.paymentResult :=
       Some {| PaymentResult.id := PaymentIntent.id paymentIntent;
               PaymentResult.status := PaymentIntent.status paymentIntent;
               PaymentResult.updateTime := toISOString now;
               PaymentResult.emailAddress :=
                 default ""%string (PaymentIntent.receipt_email paymentIntent) |};
     Order.status := "processing";
     Order.trackingNumber := Order.trackingNumber o;
     Order.isDelivered := Order.isDelivered o;
     Order.deliveredAt := Order.deliveredAt o |}.

(** The handler's answer when it confirms a payment. *)
Definition confirmed (o : Order) : Response :=
  {| Response.status := 200;
     Response.body := Json true "Payment confirmed successfully" [] (Some o) |}.

(** The handler marks the order of the request paid: it answers with the
    paid order and stores it in place of the order. *)
Definition marksPaid (now : Date) (req : ConfirmReq) (stripe : Stripe) (db : DB)
    (run : Response * DB) : Prop :=
  exists paymentIntent order,
    stripe !! ConfirmReq.paymentIntentId req = Some paymentIntent /\
    DB.orders db !! ConfirmReq.orderId req = Some order /\
    fst run = confirmed (paid now paymentIntent order) /\
    snd run =
      {| DB.products := DB.products db;
         DB.orders :=
           <[ConfirmReq.orderId req := paid now paymentIntent order]> (DB.orders db) |}.

(** The payment intent retrieved has succeeded, and the order of the
    request exists and belongs to the requesting user. *)
Definition payable (user : string) (req : ConfirmReq) (stripe : Stripe) (db : DB)
  : Prop :=
  exists paymentIntent order,
    retrieved req stripe paymentIntent /\
    PaymentIntent.status paymentIntent = "succeeded"%string /\
    DB.orders db !! ConfirmReq.orderId req = Some order /\
    Order.user order = user.

End Payments.

End OrderSpec.

(** ** Sample data *)

Module Sample.
Import Store.

Definition phone : Product :=
  {| Product.id := "p1"; Product.name := "Pixel 7";
     Product.description := "Google phone, boxed";
     Product.price := 329.5; Product.originalPrice := Some 599;
     Product.condition := excellent; Product.category := "phones";
     Product.brand := "Google"; Product.images := ["pixel.jpg"%string];
     Product.specifications := [("storage", "128GB")]%string;
     Product.inStock := true; Product.stockCount := 4;
     Product.rating := 4.5; Product.reviewCount := 12;
     Product.featured := true; Product.createdAt := "2024-03-01" |}.

Definition laptop : Product :=
  {| Product.id := "p2"; Product.name := "ThinkPad X1";
     Product.description := "Lenovo laptop";
     Product.price := 780; Product.originalPrice := None;
     Product.condition := refurbished; Product.category := "laptops";
     Product.brand := "Lenovo"; Product.images := [];
     Product.specifications := [];
     Product.inStock := true; Product.stockCount := 2;
     Product.rating := 4.8; Product.reviewCount := 3;
     Product.featured := false; Product.createdAt := "2024-01-15" |}.

Definition cable : Product :=
  {| Product.id := "p3"; Product.name := "anker cable";
     Product.description := "USB-C cable";
     Product.price := 7.25; Product.originalPrice := None;
     Product.condition := good; Product.category := "accessories";
     Product.brand := "Anker"; Product.images := [];
     Product.specifications := [];
     Product.inStock := false; Product.stockCount := 0;
     Product.rating := 3.9; Product.reviewCount := 40;
     Product.featured := false; Product.createdAt := "2024-05-20" |}.



(** The phone as a later catalogue lists it: same id, new price. *)
Definition phoneRepriced : Product :=
  {| Product.id := "p1"; Product.name := "Pixel 7";
     Product.description := "Google phone, boxed";
     Product.price := 299; Product.originalPrice := Some 599;
     Product.condition := excellent; Product.category := "phones";
     Product.brand := "Google"; Product.images := ["pixel.jpg"%string];
     Product.specifications := [("storage", "128GB")]%string;
     Product.inStock := true; Product.stockCount := 4;
     Product.rating := 4.5; Product.reviewCount := 12;
     Product.featured := true; Product.createdAt := "2024-03-01" |}.

(** An order of the admin store with a given id and total. *)
Definition sale (id : string) (total : number) : Order :=
  {| Order.id := id; Order.userId := "u1"; Order.items := [];
     Order.total := total; Order.status := OrderStatus.pending;
     Order.shippingAddress :=
       {| Address.name := "Ada Lovelace"; Address.address := "12 St James Square";
          Address.city := "London"; Address.zipCode := "SW1Y 4JH";
          Address.country := "UK" |};
     Order.createdAt := "2024-06-01"; Order.updatedAt := "2024-06-01" |}.

Definition cart : CartState :=
  {| CartState.items :=
       [ {| CartItem.product := phone; CartItem.quantity := 2 |};
         {| CartItem.product := cable; CartItem.quantity := 3 |} ];
     CartState.isOpen := true |}.

(** Lower-casing of the letters A to Z. *)
Definition lowerAscii (c : Ascii.ascii) : Ascii.ascii :=
  let n := Ascii.nat_of_ascii c in
  if ((65 <=? n) && (n <=? 90))%nat then Ascii.ascii_of_nat (n + 32) else c.

Fixpoint toLowerCase (s : string) : string :=
  match s with
  | EmptyString => EmptyString
  | String c rest => String (lowerAscii c) (toLowerCase rest)
  end.

(** Comparison of strings by code units. *)
Definition localeCompare (a b : string) : number :=
  match String.compare a b with
  | Lt => -1
  | Eq => 0
  | Gt => 1
  end.

(** Dates of the form [yyyy-mm-dd], as a day count. *)
Definition digit (c : Ascii.ascii) : Z := Z.of_nat (Ascii.nat_of_ascii c) - 48.

Definition Date_getTime (s : string) : number :=
  match list_ascii_of_string s with
  | [y1; y2; y3; y4; _; m1; m2; _; d1; d2] =>
      inject_Z
        ((((digit y1 * 10 + digit y2) * 10 + digit y3) * 10 + digit y4) * 372
         + (digit m1 * 10 + digit m2) * 31 + (digit d1 * 10 + digit d2))
  | _ => 0
  end.

Definition phones : Category :=
  {| Category.id := "c1"; Category.name := "Phones"; Category.slug := "phones";
     Category.description := "Smartphones and accessories";
     Category.image := "phones.jpg"; Category.productCount := 12 |}.

Definition laptops : Category :=
  {| Category.id := "c2"; Category.name := "Laptops"; Category.slug := "laptops";
     Category.description := "Notebooks for work"; Category.image := "laptops.jpg";
     Category.productCount := 7 |}.

(** A product priced above the default price range. *)
Definition server : Product :=
  {| Product.id := "p4"; Product.name := "PowerEdge R750";
     Product.description := "Dell rack server";
     Product.price := 6400; Product.originalPrice := None;
     Product.condition := good; Product.category := "servers";
     Product.brand := "Dell"; Product.images := [];
     Product.specifications := [];
     Product.inStock := true; Product.stockCount := 1;
     Product.rating := 4.1; Product.reviewCount := 2;
     Product.featured := false; Product.createdAt := "2024-02-02" |}.

Definition catalogue : list Product := [phone; laptop; cable].

(** The store as it starts, once the catalogue and the server are loaded. *)
Definition freshWorld : World :=
  {| World.store := initialProductState 0%nat;
     World.heap := [catalogue ++ [server]] |}.

(** Stand-ins for the validators of express-validator, for [toISOString]
    and for Stripe's signature check. *)
Definition trim (s : string) : string := s.

Definition isEmail (s : string) : bool := JS.String_includes s "@".

Definition isMongoId (s : string) : bool := (String.length s =? 24)%nat.

Definition toISOString (d : Backend.Date) : string :=
  if (d =? 1700000000000)%Z then "2023-11-14T22:13:20.000Z" else "1970-01-01T00:00:00.000Z".

(** A small shop: two products on sale, one withdrawn, and one order. *)
Definition phoneDoc : Backend.ProductDoc :=
  {| Backend.ProductDoc._id := "64b7f0a1c2d3e4f5a6b7c801";
     Backend.ProductDoc.name := "Pixel 7";
     Backend.ProductDoc.price := 329.5;
     Backend.ProductDoc.stockCount := 4;
     Backend.ProductDoc.isActive := true;
     Backend.ProductDoc.images := ["pixel.jpg"%string] |}.

Definition cableDoc : Backend.ProductDoc :=
  {| Backend.ProductDoc._id := "64b7f0a1c2d3e4f5a6b7c802";
     Backend.ProductDoc.name := "anker cable";
     Backend.ProductDoc.price := 7.25;
     Backend.ProductDoc.stockCount := 10;
     Backend.ProductDoc.isActive := true;
     Backend.ProductDoc.images := [] |}.

Definition withdrawnDoc : Backend.ProductDoc :=
  {| Backend.ProductDoc._id := "64b7f0a1c2d3e4f5a6b7c803";
     Backend.ProductDoc.name := "Zune";
     Backend.ProductDoc.price := 15;
     Backend.ProductDoc.stockCount := 1;
     Backend.ProductDoc.isActive := false;
     Backend.ProductDoc.images := [] |}.

Definition address : Backend.ShippingAddress :=
  {| Backend.ShippingAddress.firstName := "Ada";
     Backend.ShippingAddress.lastName := "Lovelace";
     Backend.ShippingAddress.email := "ada@example.org";
     Backend.ShippingAddress.address := "12 St James Square";
     Backend.ShippingAddress.city := "London";
     Backend.ShippingAddress.zipCode := "SW1Y 4JH" |}.

Definition ada : string := "64b7f0a1c2d3e4f5a6b7aaaa".
Definition bob : string := "64b7f0a1c2d3e4f5a6b7bbbb".
Definition orderId : string := "64b7f0a1c2d3e4f5a6b7d001".
Definition newOrderId : string := "64b7f0a1c2d3e4f5a6b7d002".

Definition order : Backend.Order :=
  Backend.Order_create ada
    [ {| Backend.OrderItem.product := "64b7f0a1c2d3e4f5a6b7c802";
         Backend.OrderItem.name := "anker cable";
         Backend.OrderItem.price := 7.25;
         Backend.OrderItem.quantity := 2;
         Backend.OrderItem.image := None |} ]
    address "stripe" 14.5 1.16 9.99 25.65.

Definition db : Backend.DB :=
  {| Backend.DB.products :=
       <["64b7f0a1c2d3e4f5a6b7c801"%string := phoneDoc]>
         (<["64b7f0a1c2d3e4f5a6b7c802"%string := cableDoc]>
            (<["64b7f0a1c2d3e4f5a6b7c803"%string := withdrawnDoc]> ∅));
     Backend.DB.orders := <[orderId := order]> ∅ |}.




Definition item (product : string) (quantity : number) : Backend.ItemReq :=
  {| Backend.ItemReq.product := product; Backend.ItemReq.quantity := quantity |}.

Definition orderReq (items : list Backend.ItemReq) (paymentMethod : string)
  : Backend.OrderReq :=
  {| Backend.OrderReq.items := items;
     Backend.OrderReq.shippingAddress := address;
     Backend.OrderReq.paymentMethod := paymentMethod |}.

(** The payment intent of the sample order, once it has succeeded. *)
Definition intent (status : string) : Backend.PaymentIntent :=
  {| Backend.PaymentIntent.id := "pi_3OaBcD";
     Backend.PaymentIntent.status := status;
     Backend.PaymentIntent.receipt_email := Some "ada@example.org"%string;
     Backend.PaymentIntent.metadata_userId := ada;
     Backend.PaymentIntent.metadata_orderId := orderId |}.

Definition stripe (status : string) : Backend.Stripe :=
  <["pi_3OaBcD"%string := intent status]> ∅.

(** A signature check that accepts the signature [sig_ok] and reads the
    event of a succeeded sample intent from the body. *)
Definition constructEvent (body sig secret : string) : string + Backend.Event :=
  if String.eqb sig "sig_ok" then
    inr {| Backend.Event.type := body;
           Backend.Event.data_object := intent "succeeded" |}
  else inl "No signatures found matching the expected signature"%string.

(** Stand-ins for [jwt.sign] and the User model. *)
Definition jwt_sign (id secret : string) : string :=
  (id ++ "." ++ secret)%string.

Definition User_create (name email password : string) : AuthController.UserDoc :=
  {| AuthController.UserDoc.id := ("u:" ++ email)%string;
     AuthController.UserDoc.name := name;
     AuthController.UserDoc.email := email;
     AuthController.UserDoc.password := ("hash:" ++ password)%string;
     AuthController.UserDoc.lastLogin := None |}.

Definition comparePassword (user : AuthController.UserDoc) (password : string) : bool :=
  String.eqb (AuthController.UserDoc.password user) ("hash:" ++ password)%string.

Definition users : list AuthController.UserDoc :=
  [User_create "Ada" "ada@example.org" "analytical";
   User_create "Bob" "bob@example.org" "builder"].

Definition filters : Filters :=
  {| Filters.category := ""; Filters.priceRange := (0, 5000);
     Filters.condition := ["excellent"; "refurbished"]%string;
     Filters.brand := []; Filters.inStock := true |}.

Definition world (sortBy : SortBy) (searchQuery : string) : World :=
  {| World.store :=
       {| ProductState.products := 0%nat; ProductState.categories := [];
          ProductState.filters := filters; ProductState.sortBy := sortBy;
          ProductState.searchQuery := searchQuery |};
     World.heap := [catalogue] |}.

End Sample.

(** * Properties *)

(** ** Numbers: rounding to a double *)

Section NumberFacts.
Import Spec.




























Example double_literals :
  JS.double 0.1 == 0.1000000000000000055511151231257827021181583404541015625 /\
  JS.double 9.99 == 9.9900000000000002131628207280300557613372802734375 /\
  JS.double 50 == 50.
Proof. now vm_compute. Qed.

Example double_arithmetic :
  JS.add 0.1 0.2 == 0.3000000000000000444089209850062616169452667236328125 /\
  JS.mul 0.1 3 == 0.3000000000000000444089209850062616169452667236328125 /\
  JS.mul 1.1 3 == 3.300000000000000266453525910037569701671600341796875 /\
  JS.sub 0.3 0.1 == 0.1999999999999999833466546306226518936455249786376953125.
Proof. now vm_compute. Qed.

End NumberFacts.

(** ** Cart *)

Section CartFacts.
Import Store Spec.



Lemma set_items_items xs st : CartState.items (Cart.set_items xs st) = xs.
Proof. reflexivity. Qed.

Lemma find_none_not_in (id : string) (xs : list CartItem) :
  List.find (fun item => String.eqb (Product.id (CartItem.product item)) id) xs = None <->
  ~ In id (map (fun item => Product.id (CartItem.product item)) xs).
Proof.
  induction xs as [|x xs IH]; simpl.
  - tauto.
  - destruct (String.eqb_spec (Product.id (CartItem.product x)) id) as [E|E].
    + split; [discriminate | intros H; exfalso; apply H; now left].
    + rewrite IH. tauto.
Qed.

Lemma map_update_ids (id : string) (f : CartItem -> CartItem) (xs : list CartItem) :
  (forall item, Product.id (CartItem.product (f item)) = Product.id (CartItem.product item)) ->
  map (fun item => Product.id (CartItem.product item))
    (map (fun item =>
       if String.eqb (Product.id (CartItem.product item)) id then f item else item) xs)
  = map (fun item => Product.id (CartItem.product item)) xs.
Proof.
  intros Hf. induction xs as [|x xs IH]; simpl; [reflexivity|].
  rewrite IH. destruct (String.eqb _ id); [now rewrite Hf | reflexivity].
Qed.

Lemma lookup_map_update (id : string) (f : CartItem -> CartItem)
    (xs : list CartItem) (i : nat) (item : CartItem) :
  xs !! i = Some item ->
  map (fun item =>
    if String.eqb (Product.id (CartItem.product item)) id then f item else item) xs !! i
  = Some (if String.eqb (Product.id (CartItem.product item)) id then f item else item).
Proof.
  revert i. induction xs as [|x xs IH]; intros [|i] H; simpl in *;
    try discriminate.
  - now inversion H.
  - now apply IH.
Qed.






(** C10: [updateQuantity] with a quantity of 0 or less is [removeItem]: the
    entries of that product are dropped and the others kept in order; with
    a positive quantity the entries of that product get the new quantity
    and every other entry, and the rest of the cart state, is as before. *)
Theorem updateQuantity_cases (st : CartState) (productId : string)
    (quantity : number) :
  (quantity <= 0 ->
     Cart.updateQuantity productId quantity st = Cart.removeItem productId st /\
     CartState.items (Cart.updateQuantity productId quantity st) =
       List.filter (fun item =>
         negb (String.eqb (Product.id (CartItem.product item)) productId))
         (CartState.items st) /\
     ~ In productId (cartIds (Cart.updateQuantity productId quantity st))) /\
  (0 < quantity ->
     CartState.isOpen (Cart.updateQuantity productId quantity st)
       = CartState.isOpen st /\
     length (CartState.items (Cart.updateQuantity productId quantity st))
       = length (CartState.items st) /\
     forall i item,
       CartState.items st !! i = Some item ->
       CartState.items (Cart.updateQuantity productId quantity st) !! i =
         Some (if String.eqb (Product.id (CartItem.product item)) productId
               then {| CartItem.product := CartItem.product item;
                       CartItem.quantity := quantity |}
               else item)).
Proof.
  unfold Cart.updateQuantity, JS.le. split.
  - intros Hq. apply Qle_bool_iff in Hq. rewrite Hq.
    split; [reflexivity|]. split; [reflexivity|].
    unfold cartIds, Cart.removeItem. rewrite set_items_items.
    intros Hin. apply in_map_iff in Hin as [item [Hid Hin]].
    apply List.filter_In in Hin as [_ Hkeep].
    apply negb_true_iff in Hkeep. apply String.eqb_neq in Hkeep. contradiction.
  - intros Hq.
    destruct (Qle_bool quantity 0) eqn:E.
    + apply Qle_bool_iff in E. exfalso. exact (Qlt_not_le _ _ Hq E).
    + rewrite set_items_items. split; [reflexivity|].
      split; [apply length_map|].
      intros i item Hi.
      now apply (lookup_map_update productId
        (fun item => {| CartItem.product := CartItem.product item;
                        CartItem.quantity := quantity |})).
Qed.

Lemma updateQuantity_cases_witness :
  CartState.items (Cart.updateQuantity "p1" (-1) Sample.cart) =
    [ {| CartItem.product := Sample.cable; CartItem.quantity := 3 |} ] /\
  CartState.items (Cart.updateQuantity "p3" 5 Sample.cart) !! 1%nat =
    Some {| CartItem.product := Sample.cable; CartItem.quantity := 5 |}.
Proof.
  split.
  - destruct (updateQuantity_cases Sample.cart "p1" (-1)) as [Hle _].
    destruct Hle as (_ & Hitems & _); [discriminate|]. exact Hitems.
  - destruct (updateQuantity_cases Sample.cart "p3" 5) as [_ Hgt].
    destruct Hgt as (_ & _ & Hlookup); [reflexivity|].
    exact (Hlookup 1%nat _ eq_refl).
Defined.

(** The setter of the admin store gives the orders with the given id the
    new status label and leaves every other order as it is. *)
Lemma Admin_updateOrderStatus_sets (now orderId : string) (status : OrderStatus)
    (orders : list Order) (i : nat) (order : Order) :
  orders !! i = Some order ->
  exists order',
    Admin.updateOrderStatus now orderId status orders !! i = Some order' /\
    (Order.id order = orderId -> Order.status order' = status) /\
    (Order.id order <> orderId -> order' = order).
Proof.
  unfold Admin.updateOrderStatus. revert i.
  induction orders as [|o orders IH]; intros [|i] H; simpl in *; try discriminate.
  - inversion H; subst o. eexists. split; [reflexivity|].
    destruct (String.eqb_spec (Order.id order) orderId); simpl; split; congruence.
  - now apply IH.
Qed.

End CartFacts.

(** ** Library functions *)

Section LibraryFacts.

Lemma prefix_app (needle haystack : string) :
  String.prefix needle haystack = true <->
  exists after : string, haystack = (needle ++ after)%string.
Proof.
  revert haystack. induction needle as [|c needle IH]; intros haystack; simpl.
  - split; [intros _; now exists haystack | intros _; now destruct haystack].
  - destruct haystack as [|d haystack].
    + split; [discriminate | intros [after H]; discriminate H].
    + simpl. destruct (Ascii.ascii_dec c d) as [->|Hne].
      * rewrite IH. split; intros [after H]; exists after.
        -- now rewrite H.
        -- now inversion H.
      * split; [discriminate | intros [after H]; inversion H; congruence].
Qed.

Lemma String_includes_contains (haystack needle : string) :
  JS.String_includes haystack needle = true <-> Spec.contains haystack needle.
Proof.
  unfold Spec.contains.
  induction haystack as [|c haystack IH]; cbn [JS.String_includes].
  - rewrite orb_false_r, prefix_app. split.
    + intros [after H]. now exists EmptyString, after.
    + intros [[|b before] [after H]]; [now exists after | discriminate H].
  - rewrite orb_true_iff, prefix_app, IH. split.
    + intros [[after H] | [before [after H]]].
      * now exists EmptyString, after.
      * exists (String c before), after. simpl. now rewrite H.
    + intros [[|b before] [after H]].
      * left. now exists after.
      * right. exists before, after. simpl in H. now inversion H.
Qed.

Lemma Array_includes_In (xs : list string) (x : string) :
  JS.Array_includes xs x = true <-> In x xs.
Proof.
  unfold JS.Array_includes. rewrite existsb_exists. split.
  - intros [y [Hin Heq]]. apply String.eqb_eq in Heq. now subst.
  - intros Hin. exists x. split; [exact Hin | apply String.eqb_refl].
Qed.

Lemma truthy_nonempty (s : string) : JS.truthy s = true <-> s <> ""%string.
Proof. destruct s; simpl; split; congruence. Qed.

Context {A : Type} (comparefn : A -> A -> number).

Lemma sort_insert_Permutation (x : A) (xs : list A) :
  Permutation (x :: xs) (JS.sort_insert comparefn x xs).
Proof.
  induction xs as [|y xs IH]; simpl; [reflexivity|].
  destruct (JS.le (comparefn x y) 0); [reflexivity|].
  rewrite perm_swap. now apply perm_skip.
Qed.

Lemma Array_sort_Permutation (xs : list A) :
  Permutation xs (JS.Array_sort comparefn xs).
Proof.
  induction xs as [|x xs IH]; simpl; [reflexivity|].
  rewrite <- sort_insert_Permutation. now apply perm_skip.
Qed.

(** The order a comparator induces, when it is consistent. *)
Variable before : A -> A -> Prop.
Hypothesis before_le : forall a b, JS.le (comparefn a b) 0 = true -> before a b.
Hypothesis before_gt : forall a b, JS.le (comparefn a b) 0 = false -> before b a.
Hypothesis before_trans : forall a b c, before a b -> before b c -> before a c.

Lemma sort_insert_Sorted (x : A) (xs : list A) :
  StronglySorted before xs -> StronglySorted before (JS.sort_insert comparefn x xs).
Proof.
  induction xs as [|y xs IH]; simpl; intros Hs.
  - repeat constructor.
  - inversion Hs as [|? ? Hxs Hy]; subst.
    destruct (JS.le (comparefn x y) 0) eqn:E.
    + constructor; [exact Hs|]. constructor; [now apply before_le|].
      revert Hy. apply List.Forall_impl. intros z Hz.
      eapply before_trans; [apply before_le; exact E | exact Hz].
    + constructor; [now apply IH|].
      eapply Permutation_Forall; [apply sort_insert_Permutation|].
      constructor; [now apply before_gt | exact Hy].
Qed.

Lemma Array_sort_Sorted (xs : list A) :
  StronglySorted before (JS.Array_sort comparefn xs).
Proof.
  induction xs as [|x xs IH]; simpl; [constructor|].
  now apply sort_insert_Sorted.
Qed.

End LibraryFacts.

(** ** Product store *)

Section ProductStoreFacts.
Import Store Spec.

Variable toLowerCase : string -> string.
Variable localeCompare : string -> string -> number.
Variable Date_getTime : string -> number.

Lemma bind_run {A B} (c : M A) (k : A -> M B) (w : World) :
  bind c k w = k (fst (c w)) (snd (c w)).
Proof. unfold bind. now destruct (c w). Qed.

Lemma spread_holds (r : ref) (xs : list Product) (w : World) :
  World.heap w !! r = Some xs ->
  holds w xs (fst (Array_spread r w)) (snd (Array_spread r w)).
Proof.
  intros H. unfold holds, Array_spread, bind, Array_read, Array_new. simpl.
  rewrite H. simpl. repeat split.
  - now exists [xs].
  - lia.
  - rewrite lookup_app_r by lia. now rewrite Nat.sub_diag.
Qed.

Lemma filter_holds (f : Product -> bool) (w0 : World) (xs : list Product)
    (r : ref) (w : World) :
  holds w0 xs r w ->
  holds w0 (List.filter f xs) (fst (Array_filter r f w)) (snd (Array_filter r f w)).
Proof.
  intros (Hst & [more Hmore] & Hr & Hxs).
  unfold holds, Array_filter, bind, Array_read, Array_new. simpl.
  rewrite Hxs. simpl. repeat split.
  - exact Hst.
  - exists (more ++ [List.filter f xs]). rewrite Hmore. now rewrite app_assoc.
  - rewrite Hmore, length_app. lia.
  - rewrite lookup_app_r by lia. now rewrite Nat.sub_diag.
Qed.

Lemma filter_if_holds (b : bool) (f : Product -> bool) (w0 : World)
    (xs : list Product) (r : ref) (w : World) :
  holds w0 xs r w ->
  holds w0 (List.filter (fun x => if b then f x else true) xs)
    (fst ((if b then Array_filter r f else ret r) w))
    (snd ((if b then Array_filter r f else ret r) w)).
Proof.
  intros H. destruct b.
  - now apply filter_holds.
  - simpl. replace (List.filter (fun _ => true) xs) with xs; [exact H|].
    clear. induction xs as [|x xs IH]; simpl; congruence.
Qed.

Lemma sort_holds (comparefn : Product -> Product -> number) (w0 : World)
    (xs : list Product) (r : ref) (w : World) :
  holds w0 xs r w ->
  holds w0 (JS.Array_sort comparefn xs) r (snd (Array_sort r comparefn w)).
Proof.
  intros (Hst & [more Hmore] & Hr & Hxs).
  unfold holds, Array_sort, bind, Array_read, Array_write, ret. simpl.
  rewrite Hxs. simpl. repeat split.
  - exact Hst.
  - exists (<[(r - length (World.heap w0))%nat := JS.Array_sort comparefn xs]> more).
    rewrite Hmore. now apply insert_app_r_alt.
  - exact Hr.
  - apply list_lookup_insert_eq. now apply lookup_lt_Some in Hxs.
Qed.

Lemma filter_filter {A} (f g : A -> bool) (xs : list A) :
  List.filter g (List.filter f xs) = List.filter (fun x => f x && g x) xs.
Proof.
  induction xs as [|x xs IH]; simpl; [reflexivity|].
  destruct (f x); simpl; [destruct (g x)|]; congruence.
Qed.

(** One filter of [getFilteredProducts]: run it and keep what is known
    about the array it returns. *)
Ltac filter_step :=
  rewrite bind_run; cbv beta;
  match goal with
  | H : holds _ _ ?r ?w
    |- context [snd ((if ?b then Array_filter ?r ?f else ret ?r) ?w)] =>
      apply (filter_if_holds b f) in H; rewrite filter_filter in H; revert H;
      generalize (fst ((if b then Array_filter r f else ret r) w));
      generalize (snd ((if b then Array_filter r f else ret r) w));
      clear w; intros w ? H
  | H : holds _ _ ?r ?w |- context [snd (Array_filter ?r ?f ?w)] =>
      apply (filter_holds f) in H; rewrite filter_filter in H; revert H;
      generalize (fst (Array_filter r f w));
      generalize (snd (Array_filter r f w));
      clear w; intros w ? H
  end.

Lemma getFilteredProducts_run (w : World) (products : list Product) :
  World.heap w !! ProductState.products (World.store w) = Some products ->
  holds w
    (JS.Array_sort
       (comparator localeCompare Date_getTime (ProductState.sortBy (World.store w)))
       (List.filter (keeps toLowerCase (World.store w)) products))
    (fst (getFilteredProducts toLowerCase localeCompare Date_getTime w))
    (snd (getFilteredProducts toLowerCase localeCompare Date_getTime w)).
Proof.
  intros H. apply spread_holds in H.
  rewrite <- (List.filter_true products) in H. revert H.
  unfold getFilteredProducts. rewrite bind_run. cbn [get fst snd].
  rewrite bind_run.
  generalize (fst (Array_spread (ProductState.products (World.store w)) w)).
  generalize (snd (Array_spread (ProductState.products (World.store w)) w)).
  intros w1 r1 H.
  do 6 filter_step.
  rewrite bind_run. cbn [ret fst snd].
  destruct (ProductState.sortBy (World.store w));
    exact (sort_holds _ w _ _ w1 H).
Qed.

Lemma keeps_satisfies (st : ProductState) (p : Product) :
  keeps toLowerCase st p = true <-> satisfies toLowerCase st p.
Proof.
  unfold keeps, satisfies, containsIgnoringCase.
  rewrite !andb_true_iff.
  rewrite <- !truthy_nonempty, <- !String_includes_contains, <- !Array_includes_In.
  unfold JS.ge, JS.le. rewrite <- !Qle_bool_iff.
  assert (Hlen : forall xs : list string, (0 <? length xs)%nat = true <-> xs <> []).
  { intros [|x xs]; split; intros H; first [discriminate | congruence | reflexivity]. }
  rewrite <- !Hlen.
  destruct (JS.truthy (ProductState.searchQuery st));
  destruct (JS.truthy (Filters.category (ProductState.filters st)));
  destruct (0 <? length (Filters.condition (ProductState.filters st)))%nat;
  destruct (0 <? length (Filters.brand (ProductState.filters st)))%nat;
  destruct (Filters.inStock (ProductState.filters st));
  rewrite ?orb_true_iff, ?String.eqb_eq; intuition congruence.
Qed.

Lemma sub_le_0 (a b : number) : JS.le (a - b) 0 = true <-> a <= b.
Proof. unfold JS.le. rewrite Qle_bool_iff. split; intros H; lra. Qed.

Lemma comparator_Sorted (sortBy : SortBy) (xs : list Product) :
  (sortBy = SortBy.name -> consistent localeCompare) ->
  StronglySorted (ordered localeCompare Date_getTime sortBy)
    (JS.Array_sort (comparator localeCompare Date_getTime sortBy) xs).
Proof.
  intros Hname. apply Array_sort_Sorted; destruct sortBy; simpl.
  - intros a b H. now apply Qle_bool_iff in H.
  - intros a b H. now apply sub_le_0.
  - intros a b H. now apply sub_le_0.
  - intros a b H. now apply sub_le_0.
  - intros a b H. now apply sub_le_0.
  - intros a b H. apply (proj1 (Hname eq_refl)).
    apply Qnot_le_lt. intros Hle. apply Qle_bool_iff in Hle.
    unfold JS.le in H. congruence.
  - intros a b H. apply Qlt_le_weak, Qnot_le_lt. intros Hle.
    apply sub_le_0 in Hle. congruence.
  - intros a b H. apply Qlt_le_weak, Qnot_le_lt. intros Hle.
    apply sub_le_0 in Hle. congruence.
  - intros a b H. apply Qlt_le_weak, Qnot_le_lt. intros Hle.
    apply sub_le_0 in Hle. congruence.
  - intros a b H. apply Qlt_le_weak, Qnot_le_lt. intros Hle.
    apply sub_le_0 in Hle. congruence.
  - intros a b c. apply (proj2 (Hname eq_refl)).
  - intros a b c. apply Qle_trans.
  - intros a b c H1 H2. eapply Qle_trans; eassumption.
  - intros a b c H1 H2. eapply Qle_trans; eassumption.
  - intros a b c H1 H2. eapply Qle_trans; eassumption.
Qed.

(** C2: the array [getFilteredProducts] returns holds exactly the stored
    products that pass every active filter (search query in name,
    description or brand, letter case aside; category; price range,
    inclusive; condition; brand; in stock), each as often as it is stored,
    and is ordered by the selected sort key. *)
Theorem getFilteredProducts_filters_and_sorts (w : World) (products : list Product)
    (Hproducts :
       World.heap w !! ProductState.products (World.store w) = Some products)
    (Hname :
       ProductState.sortBy (World.store w) = SortBy.name -> consistent localeCompare) :
  let run := getFilteredProducts toLowerCase localeCompare Date_getTime w in
  exists (result : list Product) (keep : Product -> bool),
    World.heap (snd run) !! fst run = Some result /\
    (forall p, keep p = true <-> satisfies toLowerCase (World.store w) p) /\
    Permutation result (List.filter keep products) /\
    (forall p, In p result <-> In p products /\ satisfies toLowerCase (World.store w) p) /\
    StronglySorted
      (ordered localeCompare Date_getTime (ProductState.sortBy (World.store w)))
      result.
Proof.
  intros run.
  destruct (getFilteredProducts_run w products Hproducts) as (_ & _ & _ & Hresult).
  eexists. exists (keeps toLowerCase (World.store w)).
  split; [exact Hresult|]. split; [intros p; apply keeps_satisfies|].
  assert (Hperm :
    Permutation
      (JS.Array_sort
         (comparator localeCompare Date_getTime (ProductState.sortBy (World.store w)))
         (List.filter (keeps toLowerCase (World.store w)) products))
      (List.filter (keeps toLowerCase (World.store w)) products)).
  { symmetry. apply Array_sort_Permutation. }
  split; [exact Hperm|]. split.
  - intros p. rewrite <- keeps_satisfies, <- List.filter_In. split.
    + apply Permutation_in. exact Hperm.
    + apply Permutation_in. symmetry. exact Hperm.
  - now apply comparator_Sorted.
Qed.

(** C7: [getFilteredProducts] leaves the store as it is: the state record
    (products reference, categories, filters, sortBy, searchQuery) is
    unchanged, every array that existed before the call, the stored
    products among them, has the elements in the order it had, and the
    array returned is not the stored one. *)
Theorem getFilteredProducts_frame (w : World) (Hw : wellFormed w) :
  let run := getFilteredProducts toLowerCase localeCompare Date_getTime w in
  World.store (snd run) = World.store w /\
  (forall r : ref, (r < length (World.heap w))%nat ->
     World.heap (snd run) !! r = World.heap w !! r) /\
  World.heap (snd run) !! ProductState.products (World.store w) =
    World.heap w !! ProductState.products (World.store w) /\
  fst run <> ProductState.products (World.store w).
Proof.
  intros run. unfold wellFormed in Hw.
  destruct (lookup_lt_is_Some_2 _ _ Hw) as [products Hproducts].
  destruct (getFilteredProducts_run w products Hproducts)
    as (Hstore & [more Hmore] & Hfresh & _).
  fold run in Hstore, Hmore, Hfresh.
  assert (Hold : forall r : ref, (r < length (World.heap w))%nat ->
            World.heap (snd run) !! r = World.heap w !! r).
  { intros r Hr. rewrite Hmore. now apply lookup_app_l. }
  split; [exact Hstore|]. split; [exact Hold|]. split; [now apply Hold|]. lia.
Qed.

End ProductStoreFacts.

Section SampleFacts.
Import Store Spec.

Lemma Sample_localeCompare_le (a b : string) :
  Sample.localeCompare a b <= 0 <-> String.compare a b <> Gt.
Proof.
  unfold Sample.localeCompare.
  destruct (String.compare a b); split; intros H; try congruence;
    try discriminate; exfalso; now apply H.
Qed.

Lemma Sample_localeCompare_consistent : consistent Sample.localeCompare.
Proof.
  split.
  - intros a b H. apply Sample_localeCompare_le.
    rewrite String.compare_antisym.
    unfold Sample.localeCompare in H.
    destruct (String.compare a b); try discriminate H. discriminate.
  - intros a b c. rewrite !Sample_localeCompare_le. intros Hab Hbc.
    destruct (String.compare a b) eqn:Eab; [|clear Hab|congruence].
    + apply String.compare_eq_iff in Eab. now subst.
    + destruct (String.compare b c) eqn:Ebc; [|clear Hbc|congruence].
      * apply String.compare_eq_iff in Ebc. subst. now rewrite Eab.
      * apply String_as_OT.cmp_lt in Eab, Ebc.
        pose proof (String_as_OT.lt_trans _ _ _ Eab Ebc) as Hac.
        apply String_as_OT.cmp_lt in Hac.
        unfold String_as_OT.cmp in Hac. now rewrite Hac.
Qed.

Lemma getFilteredProducts_filters_and_sorts_witness :
  let w := Sample.world SortBy.name "o" in
  let run :=
    getFilteredProducts Sample.toLowerCase Sample.localeCompare Sample.Date_getTime w in
  World.heap w !! ProductState.products (World.store w) = Some Sample.catalogue /\
  consistent Sample.localeCompare /\
  exists (result : list Product) (keep : Product -> bool),
    World.heap (snd run) !! fst run = Some result /\
    (forall p, keep p = true <-> satisfies Sample.toLowerCase (World.store w) p) /\
    Permutation result (List.filter keep Sample.catalogue) /\
    (forall p, In p result <->
               In p Sample.catalogue /\ satisfies Sample.toLowerCase (World.store w) p) /\
    StronglySorted
      (ordered Sample.localeCompare Sample.Date_getTime SortBy.name) result.
Proof.
  intros w run. split; [reflexivity|].
  split; [exact Sample_localeCompare_consistent|].
  apply (getFilteredProducts_filters_and_sorts
           Sample.toLowerCase Sample.localeCompare Sample.Date_getTime
           w Sample.catalogue eq_refl).
  intros _. exact Sample_localeCompare_consistent.
Defined.

Lemma getFilteredProducts_frame_witness :
  let w := Sample.world SortBy.price_high "" in
  let run :=
    getFilteredProducts Sample.toLowerCase Sample.localeCompare Sample.Date_getTime w in
  wellFormed w /\
  World.store (snd run) = World.store w /\
  World.heap (snd run) !! 0%nat = Some Sample.catalogue.
Proof.
  intros w run.
  assert (Hw : wellFormed w) by (unfold wellFormed; simpl; lia).
  destruct (getFilteredProducts_frame
              Sample.toLowerCase Sample.localeCompare Sample.Date_getTime w Hw)
    as (Hstore & _ & Hproducts & _).
  split; [exact Hw|]. split; [exact Hstore | exact Hproducts].
Defined.

(** The catalogue view of the sample store, by name and by price. *)
Example sample_by_name :
  let run :=
    getFilteredProducts Sample.toLowerCase Sample.localeCompare Sample.Date_getTime
      (Sample.world SortBy.name "O") in
  World.heap (snd run) !! fst run = Some [Sample.phone; Sample.laptop] /\
  World.heap (snd run) !! 0%nat = Some Sample.catalogue.
Proof. vm_compute. split; reflexivity. Qed.

Example sample_by_price :
  let run :=
    getFilteredProducts Sample.toLowerCase Sample.localeCompare Sample.Date_getTime
      (Sample.world SortBy.price_high "") in
  World.heap (snd run) !! fst run = Some [Sample.laptop; Sample.phone].
Proof. vm_compute. reflexivity. Qed.

(** Sorting the stored array itself, not a copy, does reorder it. *)
Example sample_sort_in_place :
  let w := Sample.world SortBy.newest "" in
  World.heap
    (snd (Array_sort (ProductState.products (World.store w))
            (fun a b => Product.price a - Product.price b) w))
    !! ProductState.products (World.store w)
  = Some [Sample.cable; Sample.phone; Sample.laptop].
Proof. vm_compute. reflexivity. Qed.

Example sample_newest :
  let run :=
    getFilteredProducts Sample.toLowerCase Sample.localeCompare Sample.Date_getTime
      (Sample.world SortBy.newest "") in
  World.heap (snd run) !! fst run = Some [Sample.phone; Sample.laptop].
Proof. vm_compute. reflexivity. Qed.

End SampleFacts.

(** ** Orders *)

Section OrderFacts.
Import Backend OrderSpec.

Variable trim : string -> string.
Variable isEmail : string -> bool.

Lemma resolves_or_refused (products : gmap string ProductDoc) (item : ItemReq) :
  resolves products item \/ refused products item.
Proof.
  unfold resolves, refused.
  destruct (products !! ItemReq.product item) as [product|]; [|right; left; reflexivity].
  destruct (ProductDoc.isActive product) eqn:Ea; [|right; right; eauto].
  destruct (Qlt_le_dec (ProductDoc.stockCount product) (ItemReq.quantity item)).
  - right. right. eauto.
  - left. eauto.
Qed.

Lemma resolves_not_refused (products : gmap string ProductDoc) (item : ItemReq) :
  resolves products item -> ~ refused products item.
Proof.
  intros (product & Hp & Ha & Hq) [Hnone | (product' & Hp' & [Ha' | Hq'])].
  - congruence.
  - congruence.
  - assert (product' = product) by congruence. subst.
    exact (Qlt_not_le _ _ Hq' Hq).
Qed.

Lemma lt_false_iff (a b : number) : JS.lt a b = false <-> b <= a.
Proof. unfold JS.lt. rewrite negb_false_iff. apply Qle_bool_iff. Qed.

Lemma lt_true_iff (a b : number) : JS.lt a b = true <-> a < b.
Proof.
  unfold JS.lt. rewrite negb_true_iff. split.
  - intros H. apply Qnot_le_lt. intros Hle. apply Qle_bool_iff in Hle. congruence.
  - intros H. destruct (Qle_bool b a) eqn:E; [|reflexivity].
    apply Qle_bool_iff in E. exfalso. exact (Qlt_not_le _ _ H E).
Qed.

Lemma validateItems_cons (products : gmap string ProductDoc) (item : ItemReq)
    (rest : list ItemReq) (itemsPrice : number) (orderItems : list OrderItem) :
  validateItems products (item :: rest) itemsPrice orderItems =
    match products !! ItemReq.product item with
    | None =>
        inl (failure 400
               ("Product " ++ ItemReq.product item ++ " not found or inactive"))
    | Some product =>
        if negb (ProductDoc.isActive product) then
          inl (failure 400
                 ("Product " ++ ItemReq.product item ++ " not found or inactive"))
        else if JS.lt (ProductDoc.stockCount product) (ItemReq.quantity item) then
          inl (failure 400 ("Insufficient stock for " ++ ProductDoc.name product))
        else
          validateItems products rest
            (JS.add itemsPrice
               (JS.mul (ProductDoc.price product) (ItemReq.quantity item)))
            (orderItems ++
               [ {| OrderItem.product := ProductDoc._id product;
                    OrderItem.name := ProductDoc.name product;
                    OrderItem.price := ProductDoc.price product;
                    OrderItem.quantity := ItemReq.quantity item;
                    OrderItem.image := head (ProductDoc.images product) |} ])
    end.
Proof. reflexivity. Qed.

Lemma fold_left_cons {A B} (f : A -> B -> A) (x : B) (xs : list B) (init : A) :
  fold_left f (x :: xs) init = fold_left f xs (f init x).
Proof. reflexivity. Qed.

Lemma validateItems_resolved (products : gmap string ProductDoc)
    (items : list ItemReq) (itemsPrice : number) (orderItems : list OrderItem) :
  Forall (resolves products) items ->
  exists orderItems',
    validateItems products items itemsPrice orderItems =
      inr (fold_left JS.add (map (lineTotal products) items) itemsPrice, orderItems').
Proof.
  intros H. revert itemsPrice orderItems.
  induction H as [|item items (product & Hp & Ha & Hq) _ IH]; intros itemsPrice orderItems.
  - exists orderItems. reflexivity.
  - rewrite validateItems_cons, Hp, Ha. cbn [negb].
    apply lt_false_iff in Hq. rewrite Hq.
    rewrite map_cons, fold_left_cons.
    unfold lineTotal at 2. rewrite Hp. apply IH.
Qed.

Lemma validateItems_refused (products : gmap string ProductDoc)
    (items : list ItemReq) (itemsPrice : number) (orderItems : list OrderItem) :
  Exists (refused products) items ->
  exists message,
    validateItems products items itemsPrice orderItems = inl (failure 400 message).
Proof.
  intros H. revert itemsPrice orderItems.
  induction items as [|item items IH]; intros itemsPrice orderItems.
  - inversion H.
  - simpl. destruct (resolves_or_refused products item) as [Hok | Hbad].
    + destruct Hok as (product & Hp & Ha & Hq). rewrite Hp, Ha. simpl.
      pose proof Hq as Hq'. apply lt_false_iff in Hq'. rewrite Hq'.
      apply IH. inversion H as [? ? Hhere | ? ? Hlater]; subst; [|exact Hlater].
      exfalso. apply (resolves_not_refused products item); [|exact Hhere].
      exists product. auto.
    + destruct Hbad as [Hnone | (product & Hp & [Ha | Hq])].
      * rewrite Hnone. eauto.
      * rewrite Hp, Ha. simpl. eauto.
      * rewrite Hp. destruct (ProductDoc.isActive product); simpl; [|eauto].
        apply lt_true_iff in Hq. rewrite Hq. eauto.
Qed.




End OrderFacts.

Section StatusFacts.
Import Backend OrderSpec.

Lemma isIn_statusLabels (status : string) :
  isIn statusLabels status = true <-> isStatusLabel status.
Proof.
  unfold isIn, statusLabels, isStatusLabel. simpl.
  rewrite orb_false_r, !orb_true_iff, !String.eqb_eq. tauto.
Qed.

(** C3: the status route accepts the five labels and no other status
    string.  For any other string it answers 400 with a validation failure
    and changes nothing; for one of the labels and an order that exists it
    stores that label as the order's status, marks the order delivered at
    the time of the call when the label is [delivered], and keeps the
    order's other details and every other document. *)
Theorem updateOrderStatus_labels (now : Date) (id : string) (req : StatusReq)
    (db : DB) :
  let run := updateOrderStatus now id req db in
  let status := StatusReq.status req in
  (isStatusLabel status <-> Response.status (fst run) <> 400%nat) /\
  (~ isStatusLabel status ->
     fst run =
       {| Response.status := 400;
          Response.body :=
            Json false "Validation failed" ["Invalid status"%string] None |} /\
     snd run = db) /\
  (isStatusLabel status ->
   forall order, DB.orders db !! id = Some order ->
     exists order',
       fst run =
         {| Response.status := 200;
            Response.body :=
              Json true "Order status updated successfully" [] (Some order') |} /\
       snd run =
         {| DB.products := DB.products db;
            DB.orders := <[id := order']> (DB.orders db) |} /\
       Order.status order' = status /\
       (status = "delivered"%string ->
          Order.isDelivered order' = true /\ Order.deliveredAt order' = Some now) /\
       (status <> "delivered"%string ->
          Order.isDelivered order' = Order.isDelivered order /\
          Order.deliveredAt order' = Order.deliveredAt order) /\
       sameOrderDetails order order').
Proof.
  intros run status. subst run status. unfold updateOrderStatus.
  pose proof (isIn_statusLabels (StatusReq.status req)) as Hlabel.
  destruct (isIn statusLabels (StatusReq.status req)); simpl.
  - assert (Hok : isStatusLabel (StatusReq.status req)) by now apply Hlabel.
    split; [|split].
    + split; [intros _|intros _; exact Hok].
      destruct (DB.orders db !! id); discriminate.
    + intros Hno. contradiction.
    + intros _ order Horder. rewrite Horder.
      eexists. split; [reflexivity|]. split; [reflexivity|].
      unfold sameOrderDetails.
      destruct (StatusReq.trackingNumber req) as [trackingNumber|];
        [destruct (JS.truthy trackingNumber)|];
        destruct (String.eqb_spec (StatusReq.status req) "delivered");
        simpl; intuition congruence.
  - assert (Hno : ~ isStatusLabel (StatusReq.status req)).
    { intros H. apply Hlabel in H. discriminate. }
    split; [|split].
    + split; [intros H; contradiction | intros H; now contradiction H].
    + intros _. split; reflexivity.
    + intros H. contradiction.
Qed.

Lemma updateOrderStatus_labels_witness :
  let req (status : string) :=
    {| StatusReq.status := status; StatusReq.trackingNumber := Some "1Z999"%string |} in
  let run := updateOrderStatus 1700000000000%Z Sample.orderId (req "delivered"%string) Sample.db in
  (fst (updateOrderStatus 1700000000000%Z Sample.orderId (req "refunded"%string) Sample.db)
     = {| Response.status := 400;
          Response.body :=
            Json false "Validation failed" ["Invalid status"%string] None |} /\
   snd (updateOrderStatus 1700000000000%Z Sample.orderId (req "refunded"%string) Sample.db)
     = Sample.db) /\
  exists order',
    DB.orders (snd run) = <[Sample.orderId := order']> (DB.orders Sample.db) /\
    Order.status order' = "delivered"%string /\
    Order.isDelivered order' = true /\
    Order.deliveredAt order' = Some 1700000000000%Z.
Proof.
  intros req run. split.
  - apply (updateOrderStatus_labels 1700000000000%Z Sample.orderId
             (req "refunded"%string) Sample.db).
    unfold isStatusLabel. simpl. intros [E|[E|[E|[E|E]]]]; discriminate E.
  - destruct (updateOrderStatus_labels 1700000000000%Z Sample.orderId
                (req "delivered"%string) Sample.db) as (_ & _ & Hset).
    destruct (Hset (or_intror (or_intror (or_intror (or_introl eq_refl))))
                Sample.order eq_refl)
      as (order' & _ & Hdb & Hstatus & Hdelivered & _).
    exists order'. fold run in Hdb. rewrite Hdb. simpl.
    split; [reflexivity|]. split; [exact Hstatus|]. now apply Hdelivered.
Defined.

End StatusFacts.

Section OrderSamples.
Import Backend OrderSpec.




(** An order of 680.75 ships free. *)
Example sample_large_order :
  let run :=
    createOrder Sample.trim Sample.isEmail Sample.ada Sample.newOrderId
      (Sample.orderReq [Sample.item "64b7f0a1c2d3e4f5a6b7c801" 2;
                        Sample.item "64b7f0a1c2d3e4f5a6b7c802" 3] "stripe") Sample.db in
  exists order,
    DB.orders (snd run) !! Sample.newOrderId = Some order /\
    Order.itemsPrice order == 680.75 /\
    Order.shippingPrice order == 0 /\
    Order.taxPrice order == 54.46000000000000085265128291212022304534912109375 /\
    Order.totalPrice order == 735.2100000000000363797880709171295166015625.
Proof. eexists. split; [reflexivity|]. vm_compute. repeat split. Qed.



(** A small order pays for shipping; a request can fail several validators
    at once. *)
Example sample_small_order :
  let run :=
    createOrder Sample.trim Sample.isEmail Sample.ada Sample.newOrderId
      (Sample.orderReq [Sample.item "64b7f0a1c2d3e4f5a6b7c802" 1] "stripe") Sample.db in
  exists order,
    DB.orders (snd run) !! Sample.newOrderId = Some order /\
    Order.itemsPrice order == 7.25 /\
    Order.shippingPrice order == 9.99 /\
    Order.taxPrice order == 0.57999999999999996003197111349436454474925994873046875 /\
    Order.totalPrice order == 17.82000000000000028421709430404007434844970703125.
Proof. eexists. split; [reflexivity|]. vm_compute. repeat split. Qed.

Example sample_validation_errors :
  fst (createOrder Sample.trim Sample.isEmail Sample.ada Sample.newOrderId
         (Sample.orderReq [] "bitcoin") Sample.db)
  = validationFailed
      ["Order must contain at least one item"; "Invalid payment method"]%string.
Proof. reflexivity. Qed.

Example sample_out_of_stock :
  fst (createOrder Sample.trim Sample.isEmail Sample.ada Sample.newOrderId
         (Sample.orderReq [Sample.item "64b7f0a1c2d3e4f5a6b7c801" 5] "stripe") Sample.db)
  = failure 400 "Insufficient stock for Pixel 7".
Proof. reflexivity. Qed.

End OrderSamples.

(** ** Payments *)

Section PaymentFacts.
Import Backend OrderSpec.

Variable isMongoId : string -> bool.
Variable toISOString : Date -> string.
Variable constructEvent : string -> string -> string -> string + Event.

Lemma paid_assignments (now : Date) (paymentIntent : PaymentIntent) (o : Order) :
  set_status "processing"
    (set_paymentResult
       {| PaymentResult.id := PaymentIntent.id paymentIntent;
          PaymentResult.status := PaymentIntent.status paymentIntent;
          PaymentResult.updateTime := toISOString now;
          PaymentResult.emailAddress :=
            default ""%string (PaymentIntent.receipt_email paymentIntent) |}
       (set_paid now o))
  = paid toISOString now paymentIntent o.
Proof. reflexivity. Qed.

(** C5: the handler marks the order paid (paid, time of payment set,
    payment result recorded, status [processing]) exactly when the payment
    intent it retrieves has status [succeeded] and the order exists and
    belongs to the requesting user; in every other case the collections are
    left as they are, and when the retrieved intent has another status the
    answer is 400, [Payment not completed]. *)
Theorem confirmPayment_guard (now : Date) (user : string) (req : ConfirmReq)
    (stripe : Stripe) (db : DB) :
  let run := confirmPayment isMongoId toISOString now user req stripe db in
  (marksPaid toISOString now req stripe db run <-> payable isMongoId user req stripe db) /\
  (~ payable isMongoId user req stripe db ->
     snd run = db /\ Response.status (fst run) <> 200%nat) /\
  (forall paymentIntent,
     retrieved isMongoId req stripe paymentIntent ->
     PaymentIntent.status paymentIntent <> "succeeded"%string ->
     fst run =
       {| Response.status := 400;
          Response.body := Json false "Payment not completed" [] None |} /\
     snd run = db).
Proof.
  intros run. subst run.
  unfold marksPaid, payable, retrieved, confirmPayment.
  destruct (validateConfirm isMongoId req) as [|e errors].
  2: { split; [|split].
       - split.
         + intros (pi & o & _ & _ & H & _). discriminate H.
         + intros (pi & o & [H _] & _). discriminate H.
       - intros _. simpl. split; [reflexivity | discriminate].
       - intros pi [H _]. discriminate H. }
  destruct (stripe !! ConfirmReq.paymentIntentId req) as [paymentIntent|].
  2: { split; [|split].
       - split.
         + intros (pi & o & H & _). discriminate H.
         + intros (pi & o & [_ H] & _). discriminate H.
       - intros _. simpl. split; [reflexivity | discriminate].
       - intros pi [_ H]. discriminate H. }
  destruct (String.eqb_spec (PaymentIntent.status paymentIntent) "succeeded")
    as [Hs|Hs]; simpl.
  2: { split; [|split].
       - split.
         + intros (pi & o & _ & _ & H & _). discriminate H.
         + intros (pi & o & [_ H] & Hs' & _). congruence.
       - intros _. split; [reflexivity | discriminate].
       - intros _ _ _. split; reflexivity. }
  destruct (DB.orders db !! ConfirmReq.orderId req) as [order|].
  2: { split; [|split].
       - split.
         + intros (pi & o & _ & H & _). discriminate H.
         + intros (pi & o & _ & _ & H & _). discriminate H.
       - intros _. simpl. split; [reflexivity | discriminate].
       - intros pi [_ H] Hs'. congruence. }
  destruct (String.eqb_spec (Order.user order) user) as [Hu|Hu]; simpl.
  - split; [|split].
    + split; intros _.
      * exists paymentIntent, order. auto.
      * exists paymentIntent, order. auto.
    + intros Hno. exfalso. apply Hno. exists paymentIntent, order. auto.
    + intros pi [_ H] Hs'. congruence.
  - split; [|split].
    + split.
      * intros (pi & o & _ & _ & H & _). discriminate H.
      * intros (pi & o & _ & _ & H & Hu'). congruence.
    + intros _. split; [reflexivity | discriminate].
    + intros pi [_ H] Hs'. congruence.
Qed.

(** C6: for a succeeded payment intent attached to an order, the webhook
    (on the verified event [payment_intent.succeeded]) and confirm-payment
    (called by the order's owner for that intent and order) leave the order
    paid, with the time of payment set to the time of the call and status
    [processing]; called at the same time they leave the same payment
    state. *)
Theorem webhook_confirm_same_payment_state
    (nowW nowC : Date) (user : string) (req : ConfirmReq) (stripe : Stripe)
    (db : DB) (secret sig body : string) (paymentIntent : PaymentIntent)
    (order : Order)
    (Hretrieved : retrieved isMongoId req stripe paymentIntent)
    (Hsucceeded : PaymentIntent.status paymentIntent = "succeeded"%string)
    (Hattached : PaymentIntent.metadata_orderId paymentIntent = ConfirmReq.orderId req)
    (Hnonempty : ConfirmReq.orderId req <> ""%string)
    (Horder : DB.orders db !! ConfirmReq.orderId req = Some order)
    (Howner : Order.user order = user)
    (Hsecret : secret <> ""%string)
    (Hevent :
       constructEvent body sig secret =
         inr {| Event.type := "payment_intent.succeeded";
                Event.data_object := paymentIntent |}) :
  exists viaWebhook viaConfirm,
    DB.orders (snd (webhook constructEvent nowW (Some secret) sig body db))
      !! ConfirmReq.orderId req = Some viaWebhook /\
    DB.orders (snd (confirmPayment isMongoId toISOString nowC user req stripe db))
      !! ConfirmReq.orderId req = Some viaConfirm /\
    paymentState viaWebhook = (true, Some nowW, "processing"%string) /\
    paymentState viaConfirm = (true, Some nowC, "processing"%string) /\
    (nowW = nowC -> paymentState viaWebhook = paymentState viaConfirm).
Proof.
  destruct Hretrieved as [Hvalid Hstripe].
  apply truthy_nonempty in Hsecret, Hnonempty.
  exists (set_status "processing" (set_paid nowW order)),
         (paid toISOString nowC paymentIntent order).
  split; [|split].
  - unfold webhook. rewrite Hsecret, Hevent. simpl.
    rewrite Hattached, Hnonempty. simpl.
    unfold Order_markPaid. rewrite lookup_alter.
    rewrite decide_True by reflexivity. now rewrite Horder.
  - unfold confirmPayment. rewrite Hvalid, Hstripe.
    apply String.eqb_eq in Hsucceeded. rewrite Hsucceeded. simpl.
    rewrite Horder, Howner, String.eqb_refl. simpl.
    apply lookup_insert_eq.
  - unfold paymentState. simpl. repeat split. congruence.
Qed.

End PaymentFacts.

Section PaymentSamples.
Import Backend OrderSpec.

Lemma confirmPayment_guard_witness :
  let req :=
    {| ConfirmReq.paymentIntentId := "pi_3OaBcD"; ConfirmReq.orderId := Sample.orderId |} in
  let run (status : string) (user : string) :=
    confirmPayment Sample.isMongoId Sample.toISOString 1700000000000%Z user req
      (Sample.stripe status) Sample.db in
  marksPaid Sample.toISOString 1700000000000%Z req (Sample.stripe "succeeded")
    Sample.db (run "succeeded"%string Sample.ada) /\
  snd (run "succeeded"%string Sample.bob) = Sample.db /\
  fst (run "requires_payment_method"%string Sample.ada)
    = {| Response.status := 400;
         Response.body := Json false "Payment not completed" [] None |}.
Proof.
  intros req run. split; [|split].
  - apply (confirmPayment_guard Sample.isMongoId Sample.toISOString
             1700000000000%Z Sample.ada req (Sample.stripe "succeeded") Sample.db).
    exists (Sample.intent "succeeded"), Sample.order.
    repeat split; reflexivity.
  - apply (confirmPayment_guard Sample.isMongoId Sample.toISOString
             1700000000000%Z Sample.bob req (Sample.stripe "succeeded") Sample.db).
    intros (pi & o & _ & _ & Ho & Hu).
    change (Some Sample.order = Some o) in Ho.
    inversion Ho; subst o. discriminate Hu.
  - destruct (confirmPayment_guard Sample.isMongoId Sample.toISOString
                1700000000000%Z Sample.ada req
                (Sample.stripe "requires_payment_method") Sample.db)
      as (_ & _ & Hrefused).
    apply (Hrefused (Sample.intent "requires_payment_method")).
    + split; reflexivity.
    + discriminate.
Defined.

Lemma webhook_confirm_same_payment_state_witness :
  let req :=
    {| ConfirmReq.paymentIntentId := "pi_3OaBcD"; ConfirmReq.orderId := Sample.orderId |} in
  exists viaWebhook viaConfirm,
    DB.orders
      (snd (webhook Sample.constructEvent 1700000000000%Z (Some "whsec_1"%string)
              "sig_ok" "payment_intent.succeeded" Sample.db))
      !! Sample.orderId = Some viaWebhook /\
    DB.orders
      (snd (confirmPayment Sample.isMongoId Sample.toISOString 1700000000000%Z
              Sample.ada req (Sample.stripe "succeeded") Sample.db))
      !! Sample.orderId = Some viaConfirm /\
    paymentState viaWebhook = (true, Some 1700000000000%Z, "processing"%string) /\
    paymentState viaConfirm = (true, Some 1700000000000%Z, "processing"%string) /\
    (1700000000000%Z = 1700000000000%Z -> paymentState viaWebhook = paymentState viaConfirm).
Proof.
  intros req.
  apply (webhook_confirm_same_payment_state Sample.isMongoId Sample.toISOString
           Sample.constructEvent 1700000000000%Z 1700000000000%Z Sample.ada req
           (Sample.stripe "succeeded") Sample.db "whsec_1" "sig_ok"
           "payment_intent.succeeded" (Sample.intent "succeeded") Sample.order).
  - split; reflexivity.
  - reflexivity.
  - reflexivity.
  - discriminate.
  - reflexivity.
  - reflexivity.
  - discriminate.
  - reflexivity.
Defined.

End PaymentSamples.

(** * Further properties of the stores and routes *)

(** ** Cart: how the operations compose *)

Section CartComposition.
Import Store Spec.

Lemma map_update_absent (id : string) (f : CartItem -> CartItem) (xs : list CartItem) :
  ~ In id (map (fun item => Product.id (CartItem.product item)) xs) ->
  map (fun item =>
    if String.eqb (Product.id (CartItem.product item)) id then f item else item) xs = xs.
Proof.
  induction xs as [|x xs IH]; simpl; intros H; [reflexivity|].
  destruct (String.eqb_spec (Product.id (CartItem.product x)) id) as [E|E].
  - exfalso. apply H. now left.
  - rewrite IH; [reflexivity|]. intros Hin. apply H. now right.
Qed.

Lemma filter_absent (id : string) (xs : list CartItem) :
  ~ In id (map (fun item => Product.id (CartItem.product item)) xs) ->
  List.filter (fun item =>
    negb (String.eqb (Product.id (CartItem.product item)) id)) xs = xs.
Proof.
  induction xs as [|x xs IH]; simpl; intros H; [reflexivity|].
  destruct (String.eqb_spec (Product.id (CartItem.product x)) id) as [E|E]; simpl.
  - exfalso. apply H. now left.
  - rewrite IH; [reflexivity|]. intros Hin. apply H. now right.
Qed.










Lemma addItem_absent (product : Product) (quantity : option number)
    (st : CartState) :
  ~ In (Product.id product) (cartIds st) ->
  Cart.addItem product quantity st =
    Cart.set_items
      (CartState.items st ++
         [ {| CartItem.product := product;
              CartItem.quantity := default 1 quantity |} ]) st.
Proof.
  intros Hout. unfold Cart.addItem.
  destruct (List.find _ (CartState.items st)) eqn:E; [|reflexivity].
  apply find_none_not_in in Hout. congruence.
Qed.






Lemma set_items_same (st : CartState) : Cart.set_items (CartState.items st) st = st.
Proof. now destruct st. Qed.

(** X2: [removeItem] of a product the cart does not hold changes nothing,
    [removeItem] undoes the [addItem] of a product the cart did not hold,
    and after [removeItem] the product is not in the cart, so that removing
    it again changes nothing. *)
Theorem removeItem_undoes_addItem (st : CartState) :
  (forall productId,
     ~ In productId (cartIds st) -> Cart.removeItem productId st = st) /\
  (forall product quantity,
     ~ In (Product.id product) (cartIds st) ->
     Cart.removeItem (Product.id product) (Cart.addItem product quantity st) = st) /\
  (forall productId, ~ In productId (cartIds (Cart.removeItem productId st))) /\
  (forall productId,
     Cart.removeItem productId (Cart.removeItem productId st)
       = Cart.removeItem productId st).
Proof.
  assert (Habsent : forall productId (st' : CartState),
    ~ In productId (cartIds st') -> Cart.removeItem productId st' = st').
  { intros productId st' H. unfold Cart.removeItem.
    rewrite (filter_absent productId _ H). apply set_items_same. }
  assert (Hgone : forall productId,
    ~ In productId (cartIds (Cart.removeItem productId st))).
  { intros productId Hin. unfold cartIds, Cart.removeItem in Hin.
    rewrite set_items_items in Hin.
    apply in_map_iff in Hin as (item & Hid & Hin).
    apply List.filter_In in Hin as [_ Hkeep].
    apply negb_true_iff, String.eqb_neq in Hkeep. contradiction. }
  split; [|split; [|split]].
  - intros productId. apply Habsent.
  - intros product quantity Hout. rewrite (addItem_absent _ _ _ Hout).
    unfold Cart.removeItem. rewrite set_items_items.
    rewrite List.filter_app. simpl. rewrite String.eqb_refl. simpl.
    rewrite app_nil_r, (filter_absent _ _ Hout).
    now destruct st.
  - exact Hgone.
  - intros productId. apply Habsent, Hgone.
Qed.

Lemma removeItem_undoes_addItem_witness :
  Cart.removeItem "p2" (Cart.addItem Sample.laptop (Some 2) Sample.cart) = Sample.cart /\
  Cart.removeItem "p9" Sample.cart = Sample.cart.
Proof.
  destruct (removeItem_undoes_addItem Sample.cart) as (Habsent & Hundo & _).
  split.
  - apply (Hundo Sample.laptop (Some 2)). simpl. intros [E|[E|[]]]; discriminate E.
  - apply Habsent. simpl. intros [E|[E|[]]]; discriminate E.
Defined.

(** X3: [updateQuantity] never adds a product: for a product the cart does
    not hold it changes nothing, whatever the quantity, and for any
    product the ids in the cart afterwards were there before. *)
Theorem updateQuantity_never_adds (st : CartState) (productId : string)
    (quantity : number) :
  (~ In productId (cartIds st) ->
     Cart.updateQuantity productId quantity st = st) /\
  (forall id, In id (cartIds (Cart.updateQuantity productId quantity st)) ->
              In id (cartIds st)) /\
  (length (CartState.items (Cart.updateQuantity productId quantity st))
     <= length (CartState.items st))%nat.
Proof.
  unfold Cart.updateQuantity. destruct (JS.le quantity 0).
  - unfold Cart.removeItem. split; [|split].
    + intros H. rewrite (filter_absent productId _ H). apply set_items_same.
    + intros id Hin. unfold cartIds in *. rewrite set_items_items in Hin.
      apply in_map_iff in Hin as (item & Hid & Hin).
      apply List.filter_In in Hin as [Hin _].
      apply in_map_iff. now exists item.
    + rewrite set_items_items. apply List.filter_length_le.
  - split; [|split].
    + intros H.
      rewrite (map_update_absent productId
                 (fun item => {| CartItem.product := CartItem.product item;
                                 CartItem.quantity := quantity |}) _ H).
      apply set_items_same.
    + intros id. unfold cartIds. rewrite set_items_items.
      now rewrite (map_update_ids productId
                     (fun item => {| CartItem.product := CartItem.product item;
                                     CartItem.quantity := quantity |})).
    + rewrite set_items_items, length_map. lia.
Qed.

Lemma updateQuantity_never_adds_witness :
  Cart.updateQuantity "p2" 4 Sample.cart = Sample.cart.
Proof.
  apply (updateQuantity_never_adds Sample.cart "p2" 4).
  simpl. intros [E|[E|[]]]; discriminate E.
Defined.



(** X5: opening and closing the cart is independent of its content:
    [toggleCart] keeps the items and applied twice restores the state, and
    [addItem], [removeItem], [updateQuantity] and [clearCart] keep
    [isOpen]. *)
Theorem toggleCart_independent (st : CartState) :
  CartState.items (Cart.toggleCart st) = CartState.items st /\
  CartState.isOpen (Cart.toggleCart st) = negb (CartState.isOpen st) /\
  Cart.toggleCart (Cart.toggleCart st) = st /\
  (forall product quantity,
     CartState.isOpen (Cart.addItem product quantity st) = CartState.isOpen st) /\
  (forall productId,
     CartState.isOpen (Cart.removeItem productId st) = CartState.isOpen st) /\
  (forall productId quantity,
     CartState.isOpen (Cart.updateQuantity productId quantity st)
       = CartState.isOpen st) /\
  CartState.isOpen (Cart.clearCart st) = CartState.isOpen st.
Proof.
  split; [reflexivity|]. split; [reflexivity|]. split.
  { destruct st as [items isOpen]. unfold Cart.toggleCart. simpl.
    now rewrite negb_involutive. }
  split; [|split; [|split]]; try reflexivity.
  - intros product quantity. unfold Cart.addItem.
    now destruct (List.find _ (CartState.items st)).
  - intros productId quantity. unfold Cart.updateQuantity.
    now destruct (JS.le quantity 0).
Qed.

End CartComposition.

(** ** Auth store *)

Section AuthFacts.
Import Store Spec.

(** X6: [login] succeeds exactly when e-mail and password are both
    non-empty.  On success the store holds a signed-in user with the given
    e-mail, who is an admin exactly for the address [admin@techvault.com]
    with the password [admin123]; on failure the store is unchanged. *)
Theorem login_outcome (email password : string) (st : AuthState) :
  let run := Auth.login email password st in
  (fst run = true <-> email <> ""%string /\ password <> ""%string) /\
  (fst run = false -> snd run = st) /\
  (fst run = true ->
     AuthState.isAuthenticated (snd run) = true /\
     exists user,
       AuthState.user (snd run) = Some user /\
       User.email user = email /\
       (User.role user = Role.admin <->
        email = "admin@techvault.com"%string /\ password = "admin123"%string)).
Proof.
  intros run. subst run. unfold Auth.login.
  destruct (String.eqb_spec email "admin@techvault.com") as [He|He];
    destruct (String.eqb_spec password "admin123") as [Hp|Hp]; simpl.
  1: { subst. split; [split; [intros _; split; discriminate | reflexivity]|].
       split; [discriminate|]. intros _. split; [reflexivity|].
       eexists. split; [reflexivity|]. split; [reflexivity|]. simpl. tauto. }
  all: rewrite <- !truthy_nonempty;
    destruct (JS.truthy email); destruct (JS.truthy password); simpl;
    (split; [split; [intros H; (split; congruence) + discriminate H
                    | intros [H1 H2]; congruence]|]);
    (split; [intros H; reflexivity + discriminate H|]);
    intros H; try discriminate H;
    (split; [reflexivity|]); eexists; (split; [reflexivity|]);
    (split; [reflexivity|]); simpl;
    (split; [discriminate | intros [H1 H2]; contradiction]).
Qed.

Lemma login_outcome_witness :
  fst (Auth.login "ada@example.org" "" Auth.initial) = false /\
  snd (Auth.login "ada@example.org" "" Auth.initial) = Auth.initial /\
  AuthState.isAuthenticated (snd (Auth.login "ada@example.org" "pw" Auth.initial)) = true.
Proof.
  destruct (login_outcome "ada@example.org" "" Auth.initial) as (Hiff & Hfail & _).
  destruct (login_outcome "ada@example.org" "pw" Auth.initial) as (Hiff' & _ & Hok).
  split; [reflexivity|]. split; [apply Hfail; reflexivity|].
  apply Hok, Hiff'. split; discriminate.
Defined.

(** X7: [register] succeeds exactly when e-mail, password and name are all
    non-empty, and the user it signs in is a customer, never an admin.
    [login], [register] and [logout] keep the store consistent (a user is
    held exactly when someone is signed in), and [logout] signs out. *)
Theorem register_outcome (now email password name : string) (st : AuthState)
    (Hst : signedInConsistently st) :
  let run := Auth.register now email password name st in
  (fst run = true <->
     email <> ""%string /\ password <> ""%string /\ name <> ""%string) /\
  (fst run = false -> snd run = st) /\
  (fst run = true ->
     exists user,
       AuthState.user (snd run) = Some user /\
       User.id user = now /\ User.role user = Role.customer) /\
  signedInConsistently (snd run) /\
  signedInConsistently (snd (Auth.login email password st)) /\
  signedInConsistently (Auth.logout st) /\
  AuthState.user (Auth.logout st) = None.
Proof.
  intros run. subst run. unfold Auth.register, Auth.login, signedInConsistently in *.
  rewrite <- !truthy_nonempty.
  destruct (JS.truthy email); destruct (JS.truthy password);
    destruct (JS.truthy name);
    destruct (String.eqb email "admin@techvault.com" && String.eqb password "admin123");
    simpl; repeat split; try tauto; try congruence; try discriminate;
    try (intros (H1 & H2 & H3); discriminate);
    try (intros _; eexists; repeat split; reflexivity).
Qed.

Lemma register_outcome_witness :
  signedInConsistently Auth.initial /\
  fst (Auth.register "1700000000000" "ada@example.org" "pw" "Ada" Auth.initial) = true /\
  signedInConsistently
    (snd (Auth.register "1700000000000" "ada@example.org" "pw" "Ada" Auth.initial)).
Proof.
  assert (H : signedInConsistently Auth.initial).
  { unfold signedInConsistently. simpl.
    split; [discriminate | intros E; exfalso; now apply E]. }
  split; [exact H|].
  destruct (register_outcome "1700000000000" "ada@example.org" "pw" "Ada" Auth.initial H)
    as (Hok & _ & _ & Hkeeps & _).
  split; [|exact Hkeeps]. apply Hok. repeat split; discriminate.
Defined.

End AuthFacts.

(** ** Product store and catalogue administration *)

Section CatalogueFacts.
Import Store Spec.

Variable toLowerCase : string -> string.
Variable localeCompare : string -> string -> number.
Variable Date_getTime : string -> number.

Lemma stored_wellFormed (w : World) :
  wellFormed w -> World.heap w !! ProductState.products (World.store w) = Some (stored w).
Proof.
  unfold wellFormed, stored. intros H.
  destruct (lookup_lt_is_Some_2 _ _ H) as [products Hp]. now rewrite Hp.
Qed.

Lemma shown_stored (w : World) :
  wellFormed w ->
  shown toLowerCase localeCompare Date_getTime w =
    JS.Array_sort
      (comparator localeCompare Date_getTime (ProductState.sortBy (World.store w)))
      (List.filter (keeps toLowerCase (World.store w)) (stored w)).
Proof.
  intros H. apply stored_wellFormed in H.
  destruct (getFilteredProducts_run toLowerCase localeCompare Date_getTime w _ H)
    as (_ & _ & _ & Hresult).
  unfold shown. now rewrite Hresult.
Qed.

Lemma In_shown (w : World) (p : Product) :
  wellFormed w ->
  In p (shown toLowerCase localeCompare Date_getTime w) <->
  In p (stored w) /\ keeps toLowerCase (World.store w) p = true.
Proof.
  intros H. rewrite (shown_stored w H), <- List.filter_In. split.
  - apply Permutation_in. symmetry. apply Array_sort_Permutation.
  - apply Permutation_in. apply Array_sort_Permutation.
Qed.

(** X8: with the filters the store starts with and no search query,
    [getFilteredProducts] returns the stored products priced from 0 to
    5000, whatever the sort key: a product priced above 5000 is not
    returned until the price range is changed. *)
Theorem default_view (w : World) (Hw : wellFormed w)
    (Hfilters : ProductState.filters (World.store w) = defaultFilters)
    (Hquery : ProductState.searchQuery (World.store w) = ""%string) :
  forall p,
    In p (shown toLowerCase localeCompare Date_getTime w) <->
    In p (stored w) /\ 0 <= Product.price p /\ Product.price p <= 5000.
Proof.
  intros p. rewrite (In_shown w p Hw). unfold keeps.
  rewrite Hfilters, Hquery. simpl. unfold JS.ge, JS.le.
  rewrite !andb_true_r, andb_true_iff, !Qle_bool_iff. tauto.
Qed.

Lemma updateFilters_world (newFilters : PartialFilters) (w : World) :
  snd (updateFilters newFilters w) =
    {| World.store :=
         {| ProductState.products := ProductState.products (World.store w);
            ProductState.categories := ProductState.categories (World.store w);
            ProductState.filters :=
              mergeFilters (ProductState.filters (World.store w)) newFilters;
            ProductState.sortBy := ProductState.sortBy (World.store w);
            ProductState.searchQuery := ProductState.searchQuery (World.store w) |};
       World.heap := World.heap w |}.
Proof. reflexivity. Qed.

(** X9: switching the in-stock filter on with [updateFilters] narrows the
    view to the products in stock and changes nothing else: the products
    returned with the filter on are those returned with it off that are in
    stock, and every product returned before the switch is still returned
    with the filter off. *)
Theorem inStock_filter_narrows (w : World) (Hw : wellFormed w) :
  let only (inStock : bool) :=
    {| PartialFilters.category := None; PartialFilters.priceRange := None;
       PartialFilters.condition := None; PartialFilters.brand := None;
       PartialFilters.inStock := Some inStock |} in
  let on := snd (updateFilters (only true) w) in
  let off := snd (updateFilters (only false) w) in
  stored on = stored w /\ stored off = stored w /\
  (forall p,
     In p (shown toLowerCase localeCompare Date_getTime on) <->
     In p (shown toLowerCase localeCompare Date_getTime off) /\
     Product.inStock p = true) /\
  (forall p,
     In p (shown toLowerCase localeCompare Date_getTime w) ->
     In p (shown toLowerCase localeCompare Date_getTime off)).
Proof.
  intros only on off. subst on off. rewrite !updateFilters_world.
  split; [reflexivity|]. split; [reflexivity|].
  assert (Hon : wellFormed
    {| World.store :=
         {| ProductState.products := ProductState.products (World.store w);
            ProductState.categories := ProductState.categories (World.store w);
            ProductState.filters :=
              mergeFilters (ProductState.filters (World.store w)) (only true);
            ProductState.sortBy := ProductState.sortBy (World.store w);
            ProductState.searchQuery := ProductState.searchQuery (World.store w) |};
       World.heap := World.heap w |}) by exact Hw.
  assert (Hoff : wellFormed
    {| World.store :=
         {| ProductState.products := ProductState.products (World.store w);
            ProductState.categories := ProductState.categories (World.store w);
            ProductState.filters :=
              mergeFilters (ProductState.filters (World.store w)) (only false);
            ProductState.sortBy := ProductState.sortBy (World.store w);
            ProductState.searchQuery := ProductState.searchQuery (World.store w) |};
       World.heap := World.heap w |}) by exact Hw.
  split.
  - intros p. rewrite (In_shown _ p Hon), (In_shown _ p Hoff).
    unfold keeps, stored. simpl. rewrite andb_true_r. rewrite andb_true_iff. tauto.
  - intros p. rewrite (In_shown _ p Hw), (In_shown _ p Hoff).
    unfold keeps, stored. simpl. rewrite andb_true_r.
    intros [Hin Hkeeps]. split; [exact Hin|].
    apply andb_true_iff in Hkeeps as [Hkeeps _]. exact Hkeeps.
Qed.

Lemma lookup_new (heap : Heap) (xs : list Product) :
  (heap ++ [xs]) !! length heap = Some xs.
Proof. rewrite lookup_app_r by lia. now rewrite Nat.sub_diag. Qed.

Lemma deleteProduct_world (id : string) (w : World) :
  snd (deleteProduct id w) =
    {| World.store :=
         {| ProductState.products := length (World.heap w);
            ProductState.categories := ProductState.categories (World.store w);
            ProductState.filters := ProductState.filters (World.store w);
            ProductState.sortBy := ProductState.sortBy (World.store w);
            ProductState.searchQuery := ProductState.searchQuery (World.store w) |};
       World.heap :=
         World.heap w ++
           [List.filter (fun product => negb (String.eqb (Product.id product) id))
              (stored w)] |}.
Proof. reflexivity. Qed.

(** X10: [deleteProduct] makes the store hold a new array with the
    products of other ids, in their order, and leaves every existing array
    as it is.  Afterwards [getFilteredProducts] returns no product of that
    id and returns a product of another id exactly when it did before. *)
Theorem deleteProduct_hides (id : string) (w : World) (Hw : wellFormed w) :
  let w' := snd (deleteProduct id w) in
  stored w' =
    List.filter (fun product => negb (String.eqb (Product.id product) id)) (stored w) /\
  (forall r : ref, (r < length (World.heap w))%nat ->
     World.heap w' !! r = World.heap w !! r) /\
  (forall p,
     In p (shown toLowerCase localeCompare Date_getTime w') <->
     In p (shown toLowerCase localeCompare Date_getTime w) /\ Product.id p <> id).
Proof.
  intros w'. subst w'. rewrite deleteProduct_world.
  set (kept := List.filter _ (stored w)).
  assert (Hstored : stored
    {| World.store :=
         {| ProductState.products := length (World.heap w);
            ProductState.categories := ProductState.categories (World.store w);
            ProductState.filters := ProductState.filters (World.store w);
            ProductState.sortBy := ProductState.sortBy (World.store w);
            ProductState.searchQuery := ProductState.searchQuery (World.store w) |};
       World.heap := World.heap w ++ [kept] |} = kept).
  { unfold stored. simpl. now rewrite lookup_new. }
  split; [exact Hstored|]. split.
  - intros r Hr. simpl. now apply lookup_app_l.
  - intros p. rewrite (In_shown w p Hw).
    rewrite In_shown by (unfold wellFormed; simpl; rewrite length_app; simpl; lia).
    rewrite Hstored. subst kept. rewrite List.filter_In.
    rewrite negb_true_iff, String.eqb_neq. unfold keeps. simpl. tauto.
Qed.

Lemma addProduct_world (now nowISO : string) (productData : Product) (w : World) :
  snd (addProduct now nowISO productData w) =
    {| World.store :=
         {| ProductState.products := length (World.heap w);
            ProductState.categories := ProductState.categories (World.store w);
            ProductState.filters := ProductState.filters (World.store w);
            ProductState.sortBy := ProductState.sortBy (World.store w);
            ProductState.searchQuery := ProductState.searchQuery (World.store w) |};
       World.heap :=
         World.heap w ++
           [stored w ++
              [ {| Product.id := now;
                   Product.name := Product.name productData;
                   Product.description := Product.description productData;
                   Product.price := Product.price productData;
                   Product.originalPrice := Product.originalPrice productData;
                   Product.condition := Product.condition productData;
                   Product.category := Product.category productData;
                   Product.brand := Product.brand productData;
                   Product.images := Product.images productData;
                   Product.specifications := Product.specifications productData;
                   Product.inStock := Product.inStock productData;
                   Product.stockCount := Product.stockCount productData;
                   Product.rating := Product.rating productData;
                   Product.reviewCount := Product.reviewCount productData;
                   Product.featured := Product.featured productData;
                   Product.createdAt := nowISO |} ]] |}.
Proof. reflexivity. Qed.

Lemma filter_other_ids (id : string) (xs : list Product) :
  ~ In id (map Product.id xs) ->
  List.filter (fun product => negb (String.eqb (Product.id product) id)) xs = xs.
Proof.
  induction xs as [|x xs IH]; simpl; intros H; [reflexivity|].
  destruct (String.eqb_spec (Product.id x) id) as [E|E]; simpl.
  - exfalso. apply H. now left.
  - rewrite IH; [reflexivity|]. intros Hin. apply H. now right.
Qed.

(** X11: [addProduct] makes the store hold a new array: the products held
    before, in their order, followed by one product with the id and the
    creation date of the call and each of the fourteen other fields as
    given; existing arrays are left as they are.  A [deleteProduct] of that id afterwards
    removes it together with every product that already had the id, so the
    store holds what it held before when the id was new. *)
Theorem addProduct_then_delete (now nowISO : string) (productData : Product)
    (w : World) :
  let w' := snd (addProduct now nowISO productData w) in
  let w'' := snd (deleteProduct now w') in
  stored w' =
    stored w ++
      [ {| Product.id := now;
           Product.name := Product.name productData;
           Product.description := Product.description productData;
           Product.price := Product.price productData;
           Product.originalPrice := Product.originalPrice productData;
           Product.condition := Product.condition productData;
           Product.category := Product.category productData;
           Product.brand := Product.brand productData;
           Product.images := Product.images productData;
           Product.specifications := Product.specifications productData;
           Product.inStock := Product.inStock productData;
           Product.stockCount := Product.stockCount productData;
           Product.rating := Product.rating productData;
           Product.reviewCount := Product.reviewCount productData;
           Product.featured := Product.featured productData;
           Product.createdAt := nowISO |} ] /\
  (forall r : ref, (r < length (World.heap w))%nat ->
     World.heap w'' !! r = World.heap w !! r) /\
  stored w'' =
    List.filter (fun product => negb (String.eqb (Product.id product) now)) (stored w) /\
  (~ In now (map Product.id (stored w)) -> stored w'' = stored w).
Proof.
  intros w' w''. subst w'' w'.
  rewrite deleteProduct_world, addProduct_world.
  set (newProduct := Product.mk now _ _ _ _ _ _ _ _ _ _ _ _ _ _ nowISO).
  assert (Hstored : stored
    {| World.store :=
         {| ProductState.products := length (World.heap w);
            ProductState.categories := ProductState.categories (World.store w);
            ProductState.filters := ProductState.filters (World.store w);
            ProductState.sortBy := ProductState.sortBy (World.store w);
            ProductState.searchQuery := ProductState.searchQuery (World.store w) |};
       World.heap := World.heap w ++ [stored w ++ [newProduct]] |}
    = stored w ++ [newProduct]).
  { unfold stored at 1. simpl. now rewrite lookup_new. }
  rewrite Hstored.
  assert (Hdeleted :
    List.filter (fun product => negb (String.eqb (Product.id product) now))
      (stored w ++ [newProduct])
    = List.filter (fun product => negb (String.eqb (Product.id product) now)) (stored w)).
  { rewrite List.filter_app. simpl. rewrite String.eqb_refl. simpl. apply app_nil_r. }
  split; [|split; [|split]].
  - reflexivity.
  - intros r Hr. simpl. rewrite lookup_app_l by (rewrite length_app; simpl; lia).
    now apply lookup_app_l.
  - unfold stored at 1. simpl.
    rewrite lookup_new. simpl. exact Hdeleted.
  - intros Hnew. unfold stored at 1. simpl. rewrite lookup_new. simpl.
    rewrite Hdeleted. now apply filter_other_ids.
Qed.

Lemma updateProduct_world (id : string) (productData : PartialProduct) (w : World) :
  snd (updateProduct id productData w) =
    {| World.store :=
         {| ProductState.products := length (World.heap w);
            ProductState.categories := ProductState.categories (World.store w);
            ProductState.filters := ProductState.filters (World.store w);
            ProductState.sortBy := ProductState.sortBy (World.store w);
            ProductState.searchQuery := ProductState.searchQuery (World.store w) |};
       World.heap :=
         World.heap w ++
           [map (fun product =>
              if String.eqb (Product.id product) id
              then mergeProduct product productData else product) (stored w)] |}.
Proof. reflexivity. Qed.

(** X12: [updateProduct] keeps the number and the order of the stored
    products: a product of another id is kept as it is, and a product of
    the given id takes, field by field, the value that is given and keeps
    its own where none is.
    With no product of that id, or with no field given, the store holds
    what it held; existing arrays are left as they are. *)
Theorem updateProduct_merges (id : string) (productData : PartialProduct)
    (w : World) :
  let w' := snd (updateProduct id productData w) in
  let nothing :=
    PartialProduct.mk None None None None None None None None
                      None None None None None None None None in
  length (stored w') = length (stored w) /\
  (forall i p,
     stored w !! i = Some p ->
     stored w' !! i =
       Some (if String.eqb (Product.id p) id
             then {| Product.id :=
                       default (Product.id p) (PartialProduct.id productData);
                     Product.name :=
                       default (Product.name p) (PartialProduct.name productData);
                     Product.description :=
                       default (Product.description p) (PartialProduct.description productData);
                     Product.price :=
                       default (Product.price p) (PartialProduct.price productData);
                     Product.originalPrice :=
                       default (Product.originalPrice p) (PartialProduct.originalPrice productData);
                     Product.condition :=
                       default (Product.condition p) (PartialProduct.condition productData);
                     Product.category :=
                       default (Product.category p) (PartialProduct.category productData);
                     Product.brand :=
                       default (Product.brand p) (PartialProduct.brand productData);
                     Product.images :=
                       default (Product.images p) (PartialProduct.images productData);
                     Product.specifications :=
                       default (Product.specifications p) (PartialProduct.specifications productData);
                     Product.inStock :=
                       default (Product.inStock p) (PartialProduct.inStock productData);
                     Product.stockCount :=
                       default (Product.stockCount p) (PartialProduct.stockCount productData);
                     Product.rating :=
                       default (Product.rating p) (PartialProduct.rating productData);
                     Product.reviewCount :=
                       default (Product.reviewCount p) (PartialProduct.reviewCount productData);
                     Product.featured :=
                       default (Product.featured p) (PartialProduct.featured productData);
                     Product.createdAt :=
                       default (Product.createdAt p) (PartialProduct.createdAt productData) |}
             else p)) /\
  (forall p, mergeProduct p nothing = p) /\
  (~ In id (map Product.id (stored w)) -> stored w' = stored w) /\
  stored (snd (updateProduct id nothing w)) = stored w /\
  (forall r : ref, (r < length (World.heap w))%nat ->
     World.heap w' !! r = World.heap w !! r).
Proof.
  intros w' nothing. subst w'. rewrite !updateProduct_world.
  assert (Hstored : forall data, stored
    {| World.store :=
         {| ProductState.products := length (World.heap w);
            ProductState.categories := ProductState.categories (World.store w);
            ProductState.filters := ProductState.filters (World.store w);
            ProductState.sortBy := ProductState.sortBy (World.store w);
            ProductState.searchQuery := ProductState.searchQuery (World.store w) |};
       World.heap :=
         World.heap w ++
           [map (fun product =>
              if String.eqb (Product.id product) id
              then mergeProduct product data else product) (stored w)] |}
    = map (fun product =>
        if String.eqb (Product.id product) id
        then mergeProduct product data else product) (stored w)).
  { intros data. unfold stored at 1. simpl. now rewrite lookup_new. }
  assert (Hnothing : forall p, mergeProduct p nothing = p) by (now intros []).
  rewrite !Hstored.
  split; [apply length_map|]. split; [|split; [exact Hnothing|split; [|split]]].
  - intros i p Hp. generalize (stored w) i Hp. clear.
    intros xs. induction xs as [|x xs IH]; intros [|i] H; simpl in *; try discriminate.
    + now inversion H.
    + now apply IH.
  - generalize (stored w). intros xs Hout.
    induction xs as [|x xs IH]; simpl; [reflexivity|].
    destruct (String.eqb_spec (Product.id x) id) as [E|E].
    + exfalso. apply Hout. now left.
    + rewrite IH; [reflexivity|]. intros Hin. apply Hout. now right.
  - generalize (stored w). intros xs.
    induction xs as [|x xs IH]; simpl; [reflexivity|].
    rewrite IH, Hnothing. now destruct (String.eqb (Product.id x) id).
  - intros r Hr. simpl. now apply lookup_app_l.
Qed.

End CatalogueFacts.

(** ** Admin statistics and the category page *)

Section AdminFacts.
Import Store Spec.



(** Three sales of 0.1, 0.2 and 0.3 make a revenue of 0.6000000000000001. *)
Example sample_revenue :
  let st :=
    AdminStore.setOrders
      [Sample.sale "o1" 0.1; Sample.sale "o2" 0.2; Sample.sale "o3" 0.3]
      AdminStore.initial in
  Stats.totalOrders (AdminState.stats st) == 3 /\
  Stats.totalRevenue (AdminState.stats st)
    == 0.600000000000000088817841970012523233890533447265625.
Proof. vm_compute. split; reflexivity. Qed.

Section CategoryPage.
Import CategoryManagementPage.
Variable toLowerCase : string -> string.

(** X14: the category search keeps the categories whose name or
    description contains the query, letter case aside, in their order; two
    queries that differ in letter case only give the same list, and, empty
    text having empty lower case, the empty query keeps every category. *)
Theorem filteredCategories_search (categories : list Category) :
  (forall query category,
     In category (filteredCategories toLowerCase categories query) <->
     In category categories /\
     (containsIgnoringCase toLowerCase (Category.name category) query \/
      containsIgnoringCase toLowerCase (Category.description category) query)) /\
  (forall query query',
     toLowerCase query = toLowerCase query' ->
     filteredCategories toLowerCase categories query
       = filteredCategories toLowerCase categories query') /\
  (toLowerCase ""%string = ""%string ->
     filteredCategories toLowerCase categories "" = categories) /\
  (forall query,
     sublist (filteredCategories toLowerCase categories query) categories).
Proof.
  unfold filteredCategories. split; [|split; [|split]].
  - intros query category. rewrite List.filter_In, orb_true_iff.
    unfold containsIgnoringCase. now rewrite !String_includes_contains.
  - intros query query' H. now rewrite H.
  - intros H. rewrite H.
    induction categories as [|c cs IH]; simpl; [reflexivity|].
    assert (Hany : forall s, JS.String_includes s "" = true).
    { intros s. apply String_includes_contains. now exists ""%string, s. }
    rewrite Hany. simpl. now rewrite IH.
  - intros query. induction categories as [|c cs IH]; simpl; [constructor|].
    destruct (_ || _); [now apply sublist_skip | now apply sublist_cons].
Qed.

End CategoryPage.

(** X15: confirming the deletion of a category chosen with
    [handleDeleteCategory] removes the categories of that id and no other
    from the store, closes the dialog and forgets the choice; the products
    and the arrays are untouched.  With nothing chosen, or with the empty
    id chosen, [confirmDelete] changes neither the page nor the store. *)
Theorem confirmDelete_flow (id : string) (page : CategoryManagementPage.PageState)
    (w : World) :
  let run :=
    CategoryManagementPage.confirmDelete
      (CategoryManagementPage.handleDeleteCategory id page) w in
  (id <> ""%string ->
     ProductState.categories (World.store (snd run)) =
       List.filter (fun category => negb (String.eqb (Category.id category) id))
         (ProductState.categories (World.store w)) /\
     CategoryManagementPage.PageState.showDeleteModal (fst run) = false /\
     CategoryManagementPage.PageState.categoryToDelete (fst run) = None /\
     ProductState.products (World.store (snd run)) = ProductState.products (World.store w) /\
     ProductState.filters (World.store (snd run)) = ProductState.filters (World.store w) /\
     World.heap (snd run) = World.heap w) /\
  (id = ""%string ->
     run = (CategoryManagementPage.handleDeleteCategory id page, w)) /\
  (CategoryManagementPage.PageState.categoryToDelete page = None ->
     CategoryManagementPage.confirmDelete page w = (page, w)).
Proof.
  intros run. subst run. unfold CategoryManagementPage.confirmDelete. simpl.
  split; [|split].
  - intros Hid. apply truthy_nonempty in Hid. rewrite Hid. simpl.
    repeat split; reflexivity.
  - intros ->. reflexivity.
  - intros ->. reflexivity.
Qed.

End AdminFacts.

Section CatalogueSamples.
Import Store Spec.

Lemma default_view_witness :
  wellFormed Sample.freshWorld /\
  In Sample.server (stored Sample.freshWorld) /\
  ~ In Sample.server
      (shown Sample.toLowerCase Sample.localeCompare Sample.Date_getTime
         Sample.freshWorld) /\
  In Sample.cable
     (shown Sample.toLowerCase Sample.localeCompare Sample.Date_getTime
        Sample.freshWorld).
Proof.
  assert (Hw : wellFormed Sample.freshWorld) by (unfold wellFormed; simpl; lia).
  pose proof (default_view Sample.toLowerCase Sample.localeCompare Sample.Date_getTime
                Sample.freshWorld Hw eq_refl eq_refl) as H.
  split; [exact Hw|]. split; [|split].
  - simpl. tauto.
  - intros Hin. apply H in Hin as (_ & _ & Hprice). revert Hprice. now vm_compute.
  - apply H. split; [simpl; tauto|]. split; discriminate.
Defined.

Lemma inStock_filter_narrows_witness :
  let w := Sample.world SortBy.rating "" in
  let only (inStock : bool) :=
    {| PartialFilters.category := None; PartialFilters.priceRange := None;
       PartialFilters.condition := None; PartialFilters.brand := None;
       PartialFilters.inStock := Some inStock |} in
  wellFormed w /\
  stored (snd (updateFilters (only true) w)) = Sample.catalogue.
Proof.
  intros w only.
  assert (Hw : wellFormed w) by (unfold wellFormed; simpl; lia).
  split; [exact Hw|].
  now destruct (inStock_filter_narrows Sample.toLowerCase Sample.localeCompare
                Sample.Date_getTime w Hw) as (Hon & _).
Defined.

Lemma deleteProduct_hides_witness :
  let w := Sample.world SortBy.rating "" in
  wellFormed w /\
  stored (snd (deleteProduct "p1" w)) = [Sample.laptop; Sample.cable] /\
  ~ In Sample.phone
      (shown Sample.toLowerCase Sample.localeCompare Sample.Date_getTime
         (snd (deleteProduct "p1" w))).
Proof.
  intros w.
  assert (Hw : wellFormed w) by (unfold wellFormed; simpl; lia).
  destruct (deleteProduct_hides Sample.toLowerCase Sample.localeCompare
              Sample.Date_getTime "p1" w Hw) as (Hstored & _ & Hshown).
  split; [exact Hw|]. split; [exact Hstored|].
  intros Hin. apply Hshown in Hin as [_ Hid]. now apply Hid.
Defined.

Lemma addProduct_then_delete_witness :
  let w := Sample.world SortBy.rating "" in
  let w' :=
    snd (addProduct "1700000000000" "2023-11-14T22:13:20.000Z" Sample.server w) in
  (exists newProduct,
     stored w' = Sample.catalogue ++ [newProduct] /\
     Product.id newProduct = "1700000000000"%string /\
     Product.name newProduct = "PowerEdge R750"%string /\
     Product.brand newProduct = "Dell"%string /\
     Product.category newProduct = "servers"%string /\
     Product.stockCount newProduct = 1 /\
     Product.createdAt newProduct = "2023-11-14T22:13:20.000Z"%string) /\
  stored (snd (deleteProduct "1700000000000" w')) = Sample.catalogue.
Proof.
  intros w w'.
  destruct (addProduct_then_delete "1700000000000" "2023-11-14T22:13:20.000Z"
              Sample.server w) as (Hadded & _ & _ & Hback).
  split.
  - eexists. split; [exact Hadded|]. repeat split.
  - apply Hback. simpl. intros [E|[E|[E|[]]]]; discriminate E.
Defined.

Lemma updateProduct_merges_witness :
  let w := Sample.world SortBy.rating "" in
  let newPrice :=
    PartialProduct.mk None None None (Some 299) None None None None
                      None None None None None None None None in
  stored (snd (updateProduct "p1" newPrice w)) !! 0%nat = Some Sample.phoneRepriced /\
  stored (snd (updateProduct "p1" newPrice w)) !! 1%nat = Some Sample.laptop /\
  stored (snd (updateProduct "p7" newPrice w)) = Sample.catalogue.
Proof.
  intros w newPrice.
  destruct (updateProduct_merges "p1" newPrice w) as (_ & Hmerged & _).
  destruct (updateProduct_merges "p7" newPrice w) as (_ & _ & _ & Habsent & _).
  split; [|split].
  - exact (Hmerged 0%nat Sample.phone eq_refl).
  - exact (Hmerged 1%nat Sample.laptop eq_refl).
  - apply Habsent. simpl. intros [E|[E|[E|[]]]]; discriminate E.
Defined.

Lemma filteredCategories_search_witness :
  CategoryManagementPage.filteredCategories Sample.toLowerCase
    [Sample.phones; Sample.laptops] ""
  = [Sample.phones; Sample.laptops].
Proof.
  now apply (filteredCategories_search Sample.toLowerCase [Sample.phones; Sample.laptops]).
Defined.

Lemma confirmDelete_flow_witness :
  let w :=
    snd (setCategories [Sample.phones; Sample.laptops] (Sample.world SortBy.rating "")) in
  ProductState.categories
    (World.store
       (snd (CategoryManagementPage.confirmDelete
               (CategoryManagementPage.handleDeleteCategory "c1"
                  CategoryManagementPage.initial) w)))
  = [Sample.laptops].
Proof.
  intros w.
  destruct (confirmDelete_flow "c1" CategoryManagementPage.initial w) as (Hdel & _).
  destruct Hdel as (Hcats & _); [discriminate|]. exact Hcats.
Defined.

Example sample_filteredCategories :
  CategoryManagementPage.filteredCategories Sample.toLowerCase
    [Sample.phones; Sample.laptops] "NOTE"
  = [Sample.laptops].
Proof. reflexivity. Qed.

End CatalogueSamples.

(** ** Orders: access and status updates *)

Section OrderAccessFacts.
Import Backend OrderSpec.

(** X16: [GET /api/orders/:id] hands out an order only to its owner or to
    an admin: the answer carries an order exactly when the order of that id
    exists and the requester owns it or has the role [admin], and it is
    then that order.  An order of someone else gets a non-admin 403, a
    missing order 404. *)
Theorem getOrder_access (user : ReqUser) (id : string) (db : DB) :
  (forall order,
     Response.body (getOrder user id db) = Json true "" [] (Some order) <->
     DB.orders db !! id = Some order /\
     (Order.user order = ReqUser.id user \/ ReqUser.role user = "admin"%string)) /\
  (forall success message errors order,
     Response.body (getOrder user id db) = Json success message errors (Some order) ->
     DB.orders db !! id = Some order /\ Response.status (getOrder user id db) = 200%nat) /\
  (forall order,
     DB.orders db !! id = Some order ->
     Order.user order <> ReqUser.id user ->
     ReqUser.role user <> "admin"%string ->
     getOrder user id db =
       {| Response.status := 403;
          Response.body := Json false "Access denied" [] None |}) /\
  (DB.orders db !! id = None ->
     getOrder user id db =
       {| Response.status := 404;
          Response.body := Json false "Order not found" [] None |}).
Proof.
  unfold getOrder.
  destruct (DB.orders db !! id) as [o|]; simpl.
  2: { split; [|split; [|split]].
       - intros order. split; [discriminate | intros [H _]; discriminate H].
       - intros success message errors order H. discriminate H.
       - intros order H. discriminate H.
       - reflexivity. }
  destruct (String.eqb_spec (Order.user o) (ReqUser.id user)) as [Hu|Hu];
    destruct (String.eqb_spec (ReqUser.role user) "admin") as [Hr|Hr]; simpl.
  4: { split; [|split; [|split]].
       - intros order. split; [discriminate|].
         intros [H [Ho|Ha]]; inversion H; subst; contradiction.
       - intros success message errors order H. discriminate H.
       - reflexivity.
       - discriminate. }
  all: split; [|split; [|split]];
    [ intros order; split;
      [ intros H; inversion H; subst; split; [reflexivity | tauto]
      | intros [H _]; inversion H; reflexivity ]
    | intros success message errors order H; inversion H; now split
    | intros order H Hne Hna; inversion H; subst; contradiction
    | discriminate ].
Qed.

(** X17: a status update touches one document: the products and every
    other order are as before, whatever the request.  When no order has
    the id, nothing changes at all, and the answer to a valid label is
    404. *)
Theorem updateOrderStatus_frame (now : Date) (id : string) (req : StatusReq)
    (db : DB) :
  let run := updateOrderStatus now id req db in
  DB.products (snd run) = DB.products db /\
  (forall id', id' <> id -> DB.orders (snd run) !! id' = DB.orders db !! id') /\
  (DB.orders db !! id = None ->
     snd run = db /\
     (isStatusLabel (StatusReq.status req) ->
        fst run =
          {| Response.status := 404;
             Response.body := Json false "Order not found" [] None |})) /\
  (forall order', DB.orders (snd run) !! id = Some order' ->
     exists order, DB.orders db !! id = Some order).
Proof.
  intros run. subst run. unfold updateOrderStatus.
  pose proof (isIn_statusLabels (StatusReq.status req)) as Hlabel.
  destruct (isIn statusLabels (StatusReq.status req)); simpl.
  - destruct (DB.orders db !! id) as [order|] eqn:Ho; simpl.
    + split; [reflexivity|]. split; [|split].
      * intros id' Hne. now apply lookup_insert_ne.
      * discriminate.
      * intros _ _. now exists order.
    + split; [reflexivity|]. split; [reflexivity|]. split; [now split|].
      intros order' H. congruence.
  - split; [reflexivity|]. split; [reflexivity|]. split.
    + intros _. split; [reflexivity|]. intros H. apply Hlabel in H. discriminate H.
    + intros order' H. now exists order'.
Qed.

Lemma updateOrderStatus_frame_witness :
  snd (updateOrderStatus 1700000000000%Z Sample.newOrderId
         {| StatusReq.status := "shipped"; StatusReq.trackingNumber := None |}
         Sample.db) = Sample.db /\
  fst (updateOrderStatus 1700000000000%Z Sample.newOrderId
         {| StatusReq.status := "shipped"; StatusReq.trackingNumber := None |}
         Sample.db) =
    {| Response.status := 404;
       Response.body := Json false "Order not found" [] None |}.
Proof.
  destruct (updateOrderStatus_frame 1700000000000%Z Sample.newOrderId
              {| StatusReq.status := "shipped"; StatusReq.trackingNumber := None |}
              Sample.db) as (_ & _ & Hmissing & _).
  destruct Hmissing as [Hdb Hres]; [reflexivity|].
  split; [exact Hdb|]. apply Hres. right. right. left. reflexivity.
Defined.

(** X18: delivery and tracking are never taken back by a status update.
    An order that is delivered stays delivered under every later label,
    with its delivery date unless the label is [delivered] again, in which
    case the date becomes the time of the call; a tracking number stays
    unless the request carries a new non-empty one, which replaces it. *)
Theorem updateOrderStatus_keeps_delivery (now : Date) (id : string)
    (req : StatusReq) (db : DB) (order order' : Order)
    (Hbefore : DB.orders db !! id = Some order)
    (Hafter : DB.orders (snd (updateOrderStatus now id req db)) !! id = Some order') :
  (Order.isDelivered order = true -> Order.isDelivered order' = true) /\
  (StatusReq.status req <> "delivered"%string ->
     Order.isDelivered order' = Order.isDelivered order /\
     Order.deliveredAt order' = Order.deliveredAt order) /\
  (isStatusLabel (StatusReq.status req) ->
   StatusReq.status req = "delivered"%string ->
     Order.deliveredAt order' = Some now) /\
  (StatusReq.trackingNumber req = None \/
   StatusReq.trackingNumber req = Some ""%string ->
     Order.trackingNumber order' = Order.trackingNumber order) /\
  (forall trackingNumber,
     isStatusLabel (StatusReq.status req) ->
     StatusReq.trackingNumber req = Some trackingNumber ->
     trackingNumber <> ""%string ->
     Order.trackingNumber order' = Some trackingNumber).
Proof.
  revert Hafter. unfold updateOrderStatus.
  pose proof (isIn_statusLabels (StatusReq.status req)) as Hlabel.
  destruct (isIn statusLabels (StatusReq.status req)); simpl.
  - rewrite Hbefore. simpl. rewrite lookup_insert_eq. intros H. inversion H; subst order'.
    clear H.
    destruct (StatusReq.trackingNumber req) as [t|];
      [destruct (JS.truthy t) eqn:Et|];
      destruct (String.eqb_spec (StatusReq.status req) "delivered") as [Es|Es];
      simpl; repeat split; try tauto; try congruence;
      try (intros [H|H]; [discriminate H | inversion H; subst; discriminate Et]);
      try (intros t' _ H Hne; inversion H; subst; try reflexivity;
           apply truthy_nonempty in Hne; congruence).
  - rewrite Hbefore. intros H. inversion H; subst order'.
    assert (Hno : ~ isStatusLabel (StatusReq.status req)).
    { intros Hl. apply Hlabel in Hl. discriminate Hl. }
    repeat split; try tauto; intros; contradiction.
Qed.

Lemma updateOrderStatus_keeps_delivery_witness :
  let delivered :=
    snd (updateOrderStatus 1700000000000%Z Sample.orderId
           {| StatusReq.status := "delivered"; StatusReq.trackingNumber := Some "1Z999"%string |}
           Sample.db) in
  let reopened :=
    snd (updateOrderStatus 1700000500000%Z Sample.orderId
           {| StatusReq.status := "pending"; StatusReq.trackingNumber := None |}
           delivered) in
  exists order order',
    DB.orders delivered !! Sample.orderId = Some order /\
    DB.orders reopened !! Sample.orderId = Some order' /\
    Order.status order' = "pending"%string /\
    Order.isDelivered order' = true /\
    Order.deliveredAt order' = Some 1700000000000%Z /\
    Order.trackingNumber order' = Some "1Z999"%string.
Proof.
  intros delivered reopened.
  eexists. eexists. split; [reflexivity|]. split; [reflexivity|].
  split; [reflexivity|].
  match goal with
  | |- Order.isDelivered ?o' = true /\ _ =>
      destruct (updateOrderStatus_keeps_delivery 1700000500000%Z Sample.orderId
                  {| StatusReq.status := "pending"; StatusReq.trackingNumber := None |}
                  delivered
                  (set_delivered 1700000000000%Z
                     (set_trackingNumber "1Z999" (set_status "delivered" Sample.order)))
                  o' eq_refl eq_refl)
        as (Hstays & Hother & _ & Htracking & _)
  end.
  split; [now apply Hstays|]. split.
  - destruct Hother as [_ Hdate]; [discriminate|]. exact Hdate.
  - apply Htracking. now left.
Defined.

End OrderAccessFacts.

(** ** Orders: what an accepted request creates *)

Section OrderCreationFacts.
Import Backend OrderSpec.

Variable trim : string -> string.
Variable isEmail : string -> bool.






End OrderCreationFacts.

Section OrderCreationSamples.
Import Backend OrderSpec.

Lemma getOrder_access_witness :
  getOrder {| ReqUser.id := Sample.bob; ReqUser.role := "customer" |}
    Sample.orderId Sample.db =
      {| Response.status := 403;
         Response.body := Json false "Access denied" [] None |} /\
  Response.body
    (getOrder {| ReqUser.id := Sample.bob; ReqUser.role := "admin" |}
       Sample.orderId Sample.db) = Json true "" [] (Some Sample.order).
Proof.
  split.
  - destruct (getOrder_access {| ReqUser.id := Sample.bob; ReqUser.role := "customer" |}
                Sample.orderId Sample.db) as (_ & _ & Hdenied & _).
    apply (Hdenied Sample.order); [reflexivity | discriminate | discriminate].
  - apply (getOrder_access {| ReqUser.id := Sample.bob; ReqUser.role := "admin" |}
             Sample.orderId Sample.db).
    split; [reflexivity | now right].
Defined.



End OrderCreationSamples.

(** ** Payments: intents and the webhook *)

Section PaymentIntentFacts.
Import Backend OrderSpec.

Lemma Math_round_bounds (x : number) :
  inject_Z (Math_round x) <= x + 0.5 /\ x - 0.5 < inject_Z (Math_round x).
Proof.
  unfold Math_round. split.
  - apply Qfloor_le.
  - pose proof (Qlt_floor (x + 0.5)) as H.
    rewrite inject_Z_plus in H. change (inject_Z 1) with 1 in H.
    revert H. generalize (inject_Z (Qfloor (x + 0.5))). intros f H. lra.
Qed.




End PaymentIntentFacts.

Section WebhookFacts.
Import Backend OrderSpec.

Variable isMongoId : string -> bool.
Variable toISOString : Date -> string.
Variable constructEvent : string -> string -> string -> string + Event.

Lemma Order_markPaid_missing (id : string) (paidAt : Date) (orders : gmap string Order) :
  orders !! id = None -> Order_markPaid id paidAt orders = orders.
Proof.
  intros H. apply map_eq. intros i. unfold Order_markPaid. rewrite lookup_alter.
  destruct (decide (id = i)) as [<-|]; [now rewrite H | reflexivity].
Qed.

Lemma DB_eta (db : DB) :
  {| DB.products := DB.products db; DB.orders := DB.orders db |} = db.
Proof. now destruct db. Qed.

(** X23: the webhook changes the database only for a verified event of
    type [payment_intent.succeeded] whose intent names an existing order:
    with no secret configured, with a signature that does not verify, for
    any other event type, for an intent without order id and for an order
    id that names no order, the database is as before.  The answer is 400
    exactly when the secret is missing or empty or the signature does not
    verify, and the products are never touched. *)
Theorem webhook_guard (now : Date) (endpointSecret : option string)
    (sig body : string) (db : DB) :
  let run := webhook constructEvent now endpointSecret sig body db in
  (snd run <> db ->
     exists secret event order,
       endpointSecret = Some secret /\ secret <> ""%string /\
       constructEvent body sig secret = inr event /\
       Event.type event = "payment_intent.succeeded"%string /\
       PaymentIntent.metadata_orderId (Event.data_object event) <> ""%string /\
       DB.orders db !! PaymentIntent.metadata_orderId (Event.data_object event)
         = Some order) /\
  (Response.status (fst run) = 400%nat <->
     endpointSecret = None \/ endpointSecret = Some ""%string \/
     exists secret message,
       endpointSecret = Some secret /\ constructEvent body sig secret = inl message) /\
  (Response.status (fst run) = 400%nat \/ fst run =
     {| Response.status := 200; Response.body := Received |}) /\
  DB.products (snd run) = DB.products db.
Proof.
  intros run. subst run. unfold webhook.
  destruct endpointSecret as [secret|].
  2: { simpl. split; [intros H; now contradiction H|].
       split; [split; [now left | reflexivity]|]. split; [now left | reflexivity]. }
  destruct (JS.truthy secret) eqn:Hsecret.
  2: { simpl. split; [intros H; now contradiction H|].
       assert (secret = ""%string) as ->.
       { destruct secret; [reflexivity | discriminate]. }
       split; [split; [intros _; right; now left | reflexivity]|].
       split; [now left | reflexivity]. }
  apply truthy_nonempty in Hsecret.
  destruct (constructEvent body sig secret) as [message|event] eqn:Hevent.
  { simpl. split; [intros H; now contradiction H|].
    split; [|split; [now left | reflexivity]].
    split; [intros _; right; right; now exists secret, message | reflexivity]. }
  assert (H200 : forall db' : DB,
    (Response.status
       (fst ({| Response.status := 200; Response.body := Received |}, db')) = 400%nat <->
     Some secret = None \/ Some secret = Some ""%string \/
     exists secret0 message,
       Some secret = Some secret0 /\ constructEvent body sig secret0 = inl message)).
  { intros db'. simpl. split; [discriminate|].
    intros [H|[H|(s & m & Hs & Hm)]]; [discriminate H | congruence |].
    injection Hs as <-. congruence. }
  destruct (String.eqb_spec (Event.type event) "payment_intent.succeeded") as [Ht|Ht].
  2: { split; [intros H; now contradiction H|]. split; [apply H200|].
       split; [now right | reflexivity]. }
  destruct (JS.truthy (PaymentIntent.metadata_orderId (Event.data_object event)))
    eqn:Hid.
  2: { split; [intros H; now contradiction H|]. split; [apply H200|].
       split; [now right | reflexivity]. }
  apply truthy_nonempty in Hid.
  split; [|split; [apply H200 | split; [now right | reflexivity]]].
  cbn [snd]. intros Hchanged.
  destruct (DB.orders db !! PaymentIntent.metadata_orderId (Event.data_object event))
    as [order|] eqn:Horder.
  - exists secret, event, order. repeat split; assumption || reflexivity.
  - exfalso. apply Hchanged.
    rewrite (Order_markPaid_missing _ _ _ Horder). apply DB_eta.
Qed.

(** X24: for a verified [payment_intent.succeeded] event whose intent
    names an existing order, whatever the status of the order, the webhook
    leaves it paid at the time of the call with status [processing] and
    keeps its owner, items, prices, payment result, tracking number and
    delivery fields; every other order is as before.  Delivering the same
    event again at the same time changes nothing further. *)
Theorem webhook_marks_paid (now : Date) (secret sig body : string) (db : DB)
    (event : Event) (order : Order)
    (Hsecret : secret <> ""%string)
    (Hevent : constructEvent body sig secret = inr event)
    (Htype : Event.type event = "payment_intent.succeeded"%string)
    (Hid : PaymentIntent.metadata_orderId (Event.data_object event) <> ""%string)
    (Horder :
       DB.orders db !! PaymentIntent.metadata_orderId (Event.data_object event)
         = Some order) :
  let id := PaymentIntent.metadata_orderId (Event.data_object event) in
  let db' := snd (webhook constructEvent now (Some secret) sig body db) in
  (exists order',
     DB.orders db' !! id = Some order' /\
     paymentState order' = (true, Some now, "processing"%string) /\
     Order.user order' = Order.user order /\
     Order.items order' = Order.items order /\
     Order.totalPrice order' = Order.totalPrice order /\
     Order.paymentResult order' = Order.paymentResult order /\
     Order.trackingNumber order' = Order.trackingNumber order /\
     Order.isDelivered order' = Order.isDelivered order /\
     Order.deliveredAt order' = Order.deliveredAt order) /\
  (forall id', id' <> id -> DB.orders db' !! id' = DB.orders db !! id') /\
  snd (webhook constructEvent now (Some secret) sig body db') = db'.
Proof.
  intros id db'. subst db'.
  assert (Hrun : forall d,
    snd (webhook constructEvent now (Some secret) sig body d) =
      {| DB.products := DB.products d;
         DB.orders := Order_markPaid id now (DB.orders d) |}).
  { intros d. unfold webhook. apply truthy_nonempty in Hsecret, Hid.
    now rewrite Hsecret, Hevent, Htype, Hid. }
  rewrite !Hrun. cbn [DB.orders DB.products]. split; [|split].
  - exists (set_status "processing" (set_paid now order)).
    split; [|repeat split; reflexivity].
    unfold Order_markPaid. rewrite lookup_alter, decide_True by reflexivity.
    fold id in Horder. now rewrite Horder.
  - intros id' Hne. unfold Order_markPaid. rewrite lookup_alter.
    now rewrite decide_False by congruence.
  - f_equal. apply map_eq. intros i. unfold Order_markPaid.
    rewrite !lookup_alter. destruct (decide (id = i)); [|reflexivity].
    rewrite decide_True by reflexivity. now destruct (DB.orders db !! id).
Qed.

(** X25: confirm-payment does not tell a missing order from someone
    else's: with a succeeded intent, both get the same 403 and leave the
    database as it is.  In every case the products and the orders other
    than the one named are as before. *)
Theorem confirmPayment_denials (now : Date) (user : string) (req : ConfirmReq)
    (stripe : Stripe) (db : DB) :
  let run := confirmPayment isMongoId toISOString now user req stripe db in
  (forall paymentIntent,
     retrieved isMongoId req stripe paymentIntent ->
     PaymentIntent.status paymentIntent = "succeeded"%string ->
     (DB.orders db !! ConfirmReq.orderId req = None \/
      exists order,
        DB.orders db !! ConfirmReq.orderId req = Some order /\
        Order.user order <> user) ->
     run =
       ({| Response.status := 403;
           Response.body :=
             Json false "Order not found or access denied" [] None |}, db)) /\
  DB.products (snd run) = DB.products db /\
  (forall id', id' <> ConfirmReq.orderId req ->
     DB.orders (snd run) !! id' = DB.orders db !! id').
Proof.
  intros run. subst run. unfold confirmPayment, retrieved. split; [|split].
  - intros paymentIntent [Hvalid Hstripe] Hs Hbad.
    rewrite Hvalid, Hstripe. apply String.eqb_eq in Hs. rewrite Hs. simpl.
    destruct Hbad as [Hnone | (order & Horder & Hu)].
    + now rewrite Hnone.
    + rewrite Horder. apply String.eqb_neq in Hu. now rewrite Hu.
  - destruct (validateConfirm isMongoId req); [|reflexivity].
    destruct (stripe !! ConfirmReq.paymentIntentId req) as [pi|]; [|reflexivity].
    destruct (negb _); [reflexivity|].
    destruct (DB.orders db !! ConfirmReq.orderId req) as [o|]; [|reflexivity].
    now destruct (negb _).
  - intros id' Hne.
    destruct (validateConfirm isMongoId req); [|reflexivity].
    destruct (stripe !! ConfirmReq.paymentIntentId req) as [pi|]; [|reflexivity].
    destruct (negb _); [reflexivity|].
    destruct (DB.orders db !! ConfirmReq.orderId req) as [o|]; [|reflexivity].
    destruct (negb _); [reflexivity|]. simpl.
    apply lookup_insert_ne. congruence.
Qed.

End WebhookFacts.

(** ** Products: visibility and soft deletion *)

Section ProductFacts.
Import Backend OrderSpec.

(** X26: deleting a product is soft.  The document stays under its id
    with its name, price, images and stock count, only marked inactive;
    orders and other products are untouched; afterwards the product page
    answers 404, and deleting again changes nothing.  A missing id gets
    404 and changes nothing. *)
Theorem deleteProduct_soft (id : string) (db : DB) :
  let run := deleteProduct id db in
  (DB.products db !! id = None ->
     ProductResponse.status (fst run) = 404%nat /\ snd run = db) /\
  (forall product,
     DB.products db !! id = Some product ->
     ProductResponse.status (fst run) = 200%nat /\
     exists product',
       DB.products (snd run) !! id = Some product' /\
       ProductDoc.isActive product' = false /\
       ProductDoc.stockCount product' = ProductDoc.stockCount product /\
       sameProductDetails product
         (ProductDoc.mk (ProductDoc._id product') (ProductDoc.name product')
            (ProductDoc.price product') (ProductDoc.stockCount product')
            (ProductDoc.isActive product) (ProductDoc.images product'))) /\
  DB.orders (snd run) = DB.orders db /\
  (forall id', id' <> id -> DB.products (snd run) !! id' = DB.products db !! id') /\
  ProductResponse.status (getProduct id (snd run)) = 404%nat /\
  snd (deleteProduct id (snd run)) = snd run.
Proof.
  intros run. subst run. unfold deleteProduct.
  destruct (DB.products db !! id) as [product|] eqn:Hp; simpl.
  - split; [discriminate|]. split.
    + intros p H. injection H as <-. split; [reflexivity|].
      eexists. split; [apply lookup_insert_eq|]. simpl.
      unfold sameProductDetails. simpl. tauto.
    + split; [reflexivity|]. split; [intros id' Hne; now apply lookup_insert_ne|].
      split.
      * unfold getProduct. simpl. now rewrite lookup_insert_eq.
      * rewrite lookup_insert_eq. simpl. now rewrite insert_insert_eq.
  - split; [now split|]. split; [discriminate|]. split; [reflexivity|].
    split; [reflexivity|]. split.
    + unfold getProduct. now rewrite Hp.
    + now rewrite Hp.
Qed.

End ProductFacts.

Section ProductOrderFacts.
Import Backend OrderSpec.

Variable trim : string -> string.
Variable isEmail : string -> bool.

(** X27: what the product page hides cannot be ordered, and what it shows
    can.  When [GET /api/products/:id] answers 404 for an id, every order
    request with an item of that id is answered 400 and changes nothing;
    when it answers 200, a request that passes the validators and has that
    one item, for no more than the stock, is accepted.  In particular a
    deleted product can no longer be ordered. *)
Theorem hidden_product_not_orderable (user _id : string) (req : OrderReq)
    (db : DB) (id : string) :
  (ProductResponse.status (getProduct id db) = 404%nat ->
   In id (map ItemReq.product (OrderReq.items req)) ->
     Response.status (fst (createOrder trim isEmail user _id req db)) = 400%nat /\
     snd (createOrder trim isEmail user _id req db) = db) /\
  (In id (map ItemReq.product (OrderReq.items req)) ->
     Response.status
       (fst (createOrder trim isEmail user _id req (snd (deleteProduct id db))))
       = 400%nat) /\
  (forall product quantity,
     ProductResponse.product (getProduct id db) = Some product ->
     validateOrder trim isEmail req = [] ->
     OrderReq.items req = [ {| ItemReq.product := id; ItemReq.quantity := quantity |} ] ->
     quantity <= ProductDoc.stockCount product ->
     Response.status (fst (createOrder trim isEmail user _id req db)) = 201%nat).
Proof.
  assert (Hhidden : forall d,
    ProductResponse.status (getProduct id d) = 404%nat ->
    In id (map ItemReq.product (OrderReq.items req)) ->
    Response.status (fst (createOrder trim isEmail user _id req d)) = 400%nat /\
    snd (createOrder trim isEmail user _id req d) = d).
  { intros d H404 Hin. unfold createOrder.
    destruct (validateOrder trim isEmail req); [|now split].
    assert (Hbad : Exists (refused (DB.products d)) (OrderReq.items req)).
    { apply in_map_iff in Hin as (item & Hid & Hin).
      apply List.Exists_exists. exists item. split; [exact Hin|].
      unfold refused. rewrite Hid. unfold getProduct in H404.
      destruct (DB.products d !! id) as [product|]; [|now left].
      right. exists product. split; [reflexivity|]. left.
      destruct (ProductDoc.isActive product); [discriminate H404 | reflexivity]. }
    destruct (validateItems_refused (DB.products d) _ 0 [] Hbad) as [message Hrun].
    rewrite Hrun. now split. }
  split; [apply Hhidden|]. split.
  - intros Hin. apply Hhidden; [|exact Hin].
    unfold deleteProduct, getProduct.
    destruct (DB.products db !! id) as [product|] eqn:Hp; simpl.
    + now rewrite lookup_insert_eq.
    + now rewrite Hp.
  - intros product quantity Hshown Hvalid Hitems Hq.
    unfold getProduct in Hshown.
    destruct (DB.products db !! id) as [p|] eqn:Hp; [|discriminate].
    destruct (ProductDoc.isActive p) eqn:Ha; [|discriminate].
    injection Hshown as ->.
    unfold createOrder. rewrite Hvalid.
    assert (Hall : Forall (resolves (DB.products db)) (OrderReq.items req)).
    { rewrite Hitems. repeat constructor. exists product. auto. }
    destruct (validateItems_resolved (DB.products db) _ 0 [] Hall)
      as (orderItems & Hrun).
    now rewrite Hrun.
Qed.

End ProductOrderFacts.

Section PaymentAndProductSamples.
Import Backend OrderSpec.


Lemma webhook_guard_witness :
  snd (webhook Sample.constructEvent 1700000000000%Z (Some "whsec_1"%string)
         "sig_forged" "payment_intent.succeeded" Sample.db) = Sample.db /\
  snd (webhook Sample.constructEvent 1700000000000%Z (Some "whsec_1"%string)
         "sig_ok" "payment_intent.payment_failed" Sample.db) = Sample.db /\
  Response.status
    (fst (webhook Sample.constructEvent 1700000000000%Z None
            "sig_ok" "payment_intent.succeeded" Sample.db)) = 400%nat.
Proof.
  split; [reflexivity|]. split; [reflexivity|].
  apply (webhook_guard Sample.constructEvent 1700000000000%Z None
           "sig_ok" "payment_intent.succeeded" Sample.db).
  now left.
Defined.

Lemma webhook_marks_paid_witness :
  let shipped :=
    snd (updateOrderStatus 1690000000000%Z Sample.orderId
           {| StatusReq.status := "shipped"; StatusReq.trackingNumber := Some "1Z999"%string |}
           Sample.db) in
  let db' :=
    snd (webhook Sample.constructEvent 1700000000000%Z (Some "whsec_1"%string)
           "sig_ok" "payment_intent.succeeded" shipped) in
  exists order',
    DB.orders db' !! Sample.orderId = Some order' /\
    Order.status order' = "processing"%string /\
    Order.trackingNumber order' = Some "1Z999"%string.
Proof.
  intros shipped db'.
  destruct (webhook_marks_paid Sample.constructEvent 1700000000000%Z
              "whsec_1" "sig_ok" "payment_intent.succeeded" shipped
              {| Event.type := "payment_intent.succeeded";
                 Event.data_object := Sample.intent "succeeded" |}
              (set_trackingNumber "1Z999" (set_status "shipped" Sample.order)))
    as ((order' & Ho & Hstate & _ & _ & _ & _ & Htracking & _) & _);
    try reflexivity; try discriminate.
  exists order'. split; [exact Ho|]. split; [|exact Htracking].
  unfold paymentState in Hstate. now injection Hstate.
Defined.

Lemma confirmPayment_denials_witness :
  let req (orderId : string) :=
    {| ConfirmReq.paymentIntentId := "pi_3OaBcD"; ConfirmReq.orderId := orderId |} in
  let denied :=
    ({| Response.status := 403;
        Response.body := Json false "Order not found or access denied" [] None |},
     Sample.db) in
  confirmPayment Sample.isMongoId Sample.toISOString 1700000000000%Z Sample.bob
    (req Sample.orderId) (Sample.stripe "succeeded") Sample.db = denied /\
  confirmPayment Sample.isMongoId Sample.toISOString 1700000000000%Z Sample.bob
    (req Sample.newOrderId) (Sample.stripe "succeeded") Sample.db = denied.
Proof.
  intros req denied.
  destruct (confirmPayment_denials Sample.isMongoId Sample.toISOString
              1700000000000%Z Sample.bob (req Sample.orderId)
              (Sample.stripe "succeeded") Sample.db) as (Hforeign & _).
  destruct (confirmPayment_denials Sample.isMongoId Sample.toISOString
              1700000000000%Z Sample.bob (req Sample.newOrderId)
              (Sample.stripe "succeeded") Sample.db) as (Hmissing & _).
  split.
  - apply (Hforeign (Sample.intent "succeeded")).
    + split; reflexivity.
    + reflexivity.
    + right. exists Sample.order. split; [reflexivity | discriminate].
  - apply (Hmissing (Sample.intent "succeeded")).
    + split; reflexivity.
    + reflexivity.
    + left. reflexivity.
Defined.

Lemma deleteProduct_soft_witness :
  ProductResponse.status (fst (deleteProduct "64b7f0a1c2d3e4f5a6b7c801" Sample.db))
    = 200%nat /\
  ProductResponse.status
    (getProduct "64b7f0a1c2d3e4f5a6b7c801"
       (snd (deleteProduct "64b7f0a1c2d3e4f5a6b7c801" Sample.db))) = 404%nat /\
  snd (deleteProduct "64b7f0a1c2d3e4f5a6b7c8ff" Sample.db) = Sample.db.
Proof.
  split; [|split].
  - destruct (deleteProduct_soft "64b7f0a1c2d3e4f5a6b7c801" Sample.db)
      as (_ & Hfound & _).
    now destruct (Hfound Sample.phoneDoc eq_refl).
  - now destruct (deleteProduct_soft "64b7f0a1c2d3e4f5a6b7c801" Sample.db)
      as (_ & _ & _ & _ & H404 & _).
  - destruct (deleteProduct_soft "64b7f0a1c2d3e4f5a6b7c8ff" Sample.db)
      as (Hmissing & _).
    now destruct (Hmissing eq_refl).
Defined.

Lemma hidden_product_not_orderable_witness :
  let req :=
    Sample.orderReq [Sample.item "64b7f0a1c2d3e4f5a6b7c802" 1;
                     Sample.item "64b7f0a1c2d3e4f5a6b7c803" 1] "stripe" in
  ProductResponse.status (getProduct "64b7f0a1c2d3e4f5a6b7c803" Sample.db) = 404%nat /\
  Response.status
    (fst (createOrder Sample.trim Sample.isEmail Sample.ada Sample.newOrderId req
            Sample.db)) = 400%nat.
Proof.
  intros req. split; [reflexivity|].
  destruct (hidden_product_not_orderable Sample.trim Sample.isEmail Sample.ada
              Sample.newOrderId req Sample.db "64b7f0a1c2d3e4f5a6b7c803")
    as (Hhidden & _).
  destruct Hhidden as [H400 _]; [reflexivity | | exact H400].
  simpl. right. left. reflexivity.
Defined.

End PaymentAndProductSamples.

(** ** The auth controller *)

Section AuthControllerFacts.
Import AuthController.

Variable jwt_sign : string -> string -> string.


Section Login.
Variable comparePassword : UserDoc -> string -> bool.


End Login.

Section Register.
Variable User_create : string -> string -> string -> UserDoc.


End Register.

End AuthControllerFacts.

Section AuthControllerSamples.
Import AuthController.



End AuthControllerSamples.

(** ** Payments: the two confirmations together *)

Section ConfirmationOrderFacts.
Import Backend OrderSpec.

Variable isMongoId : string -> bool.
Variable toISOString : Date -> string.
Variable constructEvent : string -> string -> string -> string + Event.

(** X30: when both confirmations of a payment arrive, their order does not
    matter.  For a succeeded intent attached to an order of the requester,
    the webhook followed by confirm-payment and confirm-payment followed by
    the webhook, at the same time, leave the same database: the order paid,
    with the payment result confirm-payment records, and nothing else
    changed. *)
Theorem confirmations_commute (now : Date) (user : string) (req : ConfirmReq)
    (stripe : Stripe) (db : DB) (secret sig body : string)
    (paymentIntent : PaymentIntent) (order : Order)
    (Hretrieved : retrieved isMongoId req stripe paymentIntent)
    (Hsucceeded : PaymentIntent.status paymentIntent = "succeeded"%string)
    (Hattached : PaymentIntent.metadata_orderId paymentIntent = ConfirmReq.orderId req)
    (Hnonempty : ConfirmReq.orderId req <> ""%string)
    (Horder : DB.orders db !! ConfirmReq.orderId req = Some order)
    (Howner : Order.user order = user)
    (Hsecret : secret <> ""%string)
    (Hevent :
       constructEvent body sig secret =
         inr {| Event.type := "payment_intent.succeeded";
                Event.data_object := paymentIntent |}) :
  let hook := fun d => snd (webhook constructEvent now (Some secret) sig body d) in
  let confirm := fun d =>
    snd (confirmPayment isMongoId toISOString now user req stripe d) in
  let final :=
    {| DB.products := DB.products db;
       DB.orders :=
         <[ConfirmReq.orderId req := paid toISOString now paymentIntent order]>
           (DB.orders db) |} in
  confirm (hook db) = final /\ hook (confirm db) = final /\ confirm db = final.
Proof.
  intros hook confirm final. subst hook confirm final.
  destruct Hretrieved as [Hvalid Hstripe].
  apply truthy_nonempty in Hsecret, Hnonempty.
  apply String.eqb_eq in Hsucceeded.
  assert (Hhook : forall d : DB,
    snd (webhook constructEvent now (Some secret) sig body d) =
      {| DB.products := DB.products d;
         DB.orders := Order_markPaid (ConfirmReq.orderId req) now (DB.orders d) |}).
  { intros d. unfold webhook. rewrite Hsecret, Hevent. simpl.
    now rewrite Hattached, Hnonempty. }
  assert (Hconfirm : forall (d : DB) (o : Order),
    DB.orders d !! ConfirmReq.orderId req = Some o ->
    Order.user o = user ->
    snd (confirmPayment isMongoId toISOString now user req stripe d) =
      {| DB.products := DB.products d;
         DB.orders :=
           <[ConfirmReq.orderId req := paid toISOString now paymentIntent o]>
             (DB.orders d) |}).
  { intros d o Ho Hu. unfold confirmPayment.
    rewrite Hvalid, Hstripe, Hsucceeded. simpl.
    now rewrite Ho, Hu, String.eqb_refl. }
  split; [|split].
  - rewrite Hhook.
    rewrite (Hconfirm _ (set_status "processing" (set_paid now order))).
    + simpl. f_equal. apply map_eq. intros i.
      destruct (decide (ConfirmReq.orderId req = i)) as [<-|Hne].
      * now rewrite !lookup_insert_eq.
      * rewrite !lookup_insert_ne by exact Hne.
        unfold Order_markPaid. rewrite lookup_alter.
        now rewrite decide_False by exact Hne.
    + simpl. unfold Order_markPaid. rewrite lookup_alter.
      rewrite decide_True by reflexivity. now rewrite Horder.
    + exact Howner.
  - rewrite (Hconfirm db order Horder Howner), Hhook. simpl.
    f_equal. apply map_eq. intros i. unfold Order_markPaid. rewrite lookup_alter.
    destruct (decide (ConfirmReq.orderId req = i)) as [<-|Hne].
    + now rewrite !lookup_insert_eq.
    + reflexivity.
  - exact (Hconfirm db order Horder Howner).
Qed.

End ConfirmationOrderFacts.

Section ConfirmationOrderSamples.
Import Backend OrderSpec.

Lemma confirmations_commute_witness :
  let req :=
    {| ConfirmReq.paymentIntentId := "pi_3OaBcD"; ConfirmReq.orderId := Sample.orderId |} in
  let hook := fun d =>
    snd (webhook Sample.constructEvent 1700000000000%Z (Some "whsec_1"%string)
           "sig_ok" "payment_intent.succeeded" d) in
  let confirm := fun d =>
    snd (confirmPayment Sample.isMongoId Sample.toISOString 1700000000000%Z
           Sample.ada req (Sample.stripe "succeeded") d) in
  confirm (hook Sample.db) = hook (confirm Sample.db).
Proof.
  intros req hook confirm.
  assert (Hretrieved :
    retrieved Sample.isMongoId req (Sample.stripe "succeeded")
      (Sample.intent "succeeded")) by (split; reflexivity).
  assert (Hnonempty : ConfirmReq.orderId req <> ""%string) by discriminate.
  assert (Hsecret : "whsec_1"%string <> ""%string) by discriminate.
  destruct (confirmations_commute Sample.isMongoId Sample.toISOString
              Sample.constructEvent 1700000000000%Z Sample.ada req
              (Sample.stripe "succeeded") Sample.db "whsec_1" "sig_ok"
              "payment_intent.succeeded" (Sample.intent "succeeded") Sample.order
              Hretrieved eq_refl eq_refl Hnonempty eq_refl eq_refl Hsecret eq_refl)
    as (Hwc & Hcw & _).
  subst hook confirm. cbv beta. rewrite Hwc, Hcw. reflexivity.
Defined.

End ConfirmationOrderSamples.
